(** * CryptoOracle: decision and risk engine

    A shallow embedding of [OKXBot_Workspace/src/okx_deepseek.py]:
    the signal gate, the position sizer and the execution router of
    [DeepSeekTrader.execute_trade], and the global [RiskManager]
    ([check], [initialize_baseline]).

    Conventions of the embedding.
    - Python numbers are exact rationals ([Q]); rounding of binary
      floating point is not represented.  A division whose divisor is
      zero raises, as it does for Python numbers.
    - Every read of the exchange made by the code is a field of an
      environment record, one field per call site, so that two reads
      of the same quantity may disagree as they may on the wire.  A
      read that can fail is an [option]; the helpers that swallow
      their exceptions ([get_account_balance], [get_spot_balance])
      are plain values.
    - Log lines are not represented; notifications and orders are
      events, in the order in which the code issues them. *)

From Stdlib Require Import QArith Qminmax Qround Qabs Lqa ZArith.
From Stdlib Require Import String Ascii List Bool Lia DecimalString.
Import ListNotations.

Local Open Scope Q_scope.

(** ** Python values *)

Module Py.

(** Comparisons on numbers, as booleans. *)
Definition ltb (x y : Q) : bool := negb (Qle_bool y x).
Definition leb (x y : Q) : bool := Qle_bool x y.
Definition eqb (x y : Q) : bool := Qeq_bool x y.

(** [min(a, b)] keeps its first argument unless the second is
    strictly smaller; [max(a, b)] unless the second is strictly
    larger. *)
Definition min2 (a b : Q) : Q := if ltb b a then b else a.
Definition min3 (a b c : Q) : Q := min2 (min2 a b) c.
Definition max2 (a b : Q) : Q := if ltb a b then b else a.

(** Truth value of an optional number: [None] and [0] are false. *)
Definition truthy (v : option Q) : bool :=
  match v with
  | None => false
  | Some q => negb (eqb q 0)
  end.

(** [x if x else 0] on an optional number. *)
Definition or_zero (v : option Q) : Q :=
  match v with
  | None => 0
  | Some q => q
  end.

(** [x / y]; [None] stands for [ZeroDivisionError]. *)
Definition div (x y : Q) : option Q :=
  if eqb y 0 then None else Some (x / y).

(** Rounding to the nearest integer, ties to even. *)
Definition round_half_even (q : Q) : Z :=
  let f := Qfloor q in
  let r := q - inject_Z f in
  if ltb r (1 # 2) then f
  else if ltb (1 # 2) r then (f + 1)%Z
  else if Z.even f then f else (f + 1)%Z.

(** The number printed by [f"{q:.df}"], times [10^d]. *)
Definition scaled (d : nat) (q : Q) : Z :=
  round_half_even (q * inject_Z (10 ^ Z.of_nat d)).

(** [float(f"{q:.4f}")]. *)
Definition round4 (q : Q) : Q :=
  inject_Z (scaled 4 q) / inject_Z (10 ^ 4).

Definition digits (n : Z) : string :=
  NilEmpty.string_of_uint (N.to_uint (Z.to_N n)).

Fixpoint zeros (n : nat) : string :=
  match n with
  | O => EmptyString
  | S k => String "0"%char (zeros k)
  end.

Definition pad_left (d : nat) (s : string) : string :=
  (zeros (d - String.length s) ++ s)%string.

(** [f"{q:.df}"] for [d >= 1]. *)
Definition fmt_fixed (d : nat) (q : Q) : string :=
  let n := Z.abs (scaled d q) in
  let p := (10 ^ Z.of_nat d)%Z in
  ((if ltb q 0 then "-" else "")
     ++ digits (n / p) ++ "." ++ pad_left d (digits (n mod p)))%string.

(** [str.upper] on ASCII text. *)
Definition upper_char (c : ascii) : ascii :=
  let n := nat_of_ascii c in
  if (97 <=? n)%nat && (n <=? 122)%nat then ascii_of_nat (n - 32) else c.

Fixpoint upper (s : string) : string :=
  match s with
  | EmptyString => EmptyString
  | String c r => String (upper_char c) (upper r)
  end.

End Py.

(** ** DeepSeekTrader *)

Module DeepSeekTrader.

Local Open Scope string_scope.

(** [trade_mode]: [cross] and [isolated] are the margin modes, [cash]
    is spot. *)
Inductive TradeMode := cash | cross | isolated.

Definition is_cash (m : TradeMode) : bool :=
  match m with
  | cash => true
  | _ => false
  end.

(** The fields of [self] that [execute_trade] reads. *)
Record Trader := mkTrader {
  symbol : string;
  self_amount : Q;            (* self.amount *)
  allocation : Q;
  leverage : Q;
  trade_mode : TradeMode;
  test_mode : bool;
  max_slippage : Q;
  min_confidence : string;
  taker_fee_rate : Q;
  initial_balance : Q         (* 0 when not configured *)
}.

(** [signal_data], as [analyze_with_deepseek] hands it over. *)
Record Signal := mkSignal {
  signal : string;
  confidence : string;
  amount : Q;
  reason : string;
  stop_loss : option Q;
  take_profit : option Q;
  timestamp : string
}.

Definition set_signal (s : Signal) (a : string) (r : string) : Signal :=
  mkSignal a (confidence s) (amount s) r
           (stop_loss s) (take_profit s) (timestamp s).

(** One entry of [exchange.fetch_positions]. *)
Record RawPosition := mkRawPosition {
  raw_symbol : string;
  contracts : option Q;
  raw_side : string;
  entryPrice : option Q;
  unrealizedPnl : option Q;
  raw_leverage : option Q
}.

(** The dictionary returned by [get_current_position]. *)
Record Position := mkPosition {
  side : string;
  size : Q;
  entry_price : Q;
  unrealized_pnl : Q;
  pos_leverage : Q;
  pos_symbol : string
}.

Record Market := mkMarket {
  min_amount : option Q;      (* limits.amount.min *)
  min_cost : option Q         (* limits.cost.min *)
}.

Inductive OrderSide := buy | sell.

Record Order := mkOrder {
  order_side : OrderSide;
  quantity : Q;
  reduceOnly : bool;
  tdMode : option TradeMode
}.

Inductive OrderReply :=
| Filled
| Rejected (insufficient_margin : bool).

(** What the exchange answers during one call of [execute_trade]. *)
Record Exchange := mkExchange {
  fetch_positions : option (list RawPosition);
  ohlcv_price_entry : option Q;       (* get_ohlcv() on entry *)
  fetch_ticker_last : option Q;       (* slippage guard *)
  ohlcv_price_slippage : option Q;    (* get_ohlcv() in the guard *)
  ohlcv_price_sizing : option Q;      (* get_ohlcv() before sizing *)
  account_balance : Q;                (* get_account_balance() *)
  spot_balance_used : Q;              (* get_spot_balance(), isolation *)
  spot_balance_sell : Q;              (* get_spot_balance(), spot SELL *)
  market : option Market;             (* exchange.market(symbol) *)
  amount_to_precision : Q -> option Q;
  coin_balance : option Q;            (* fetch_balance() before a spot sell *)
  create_market_order : Order -> OrderReply
}.

Inductive Notice :=
| TradeCancelled            (* price moved beyond max_slippage *)
| CannotOrder               (* below the minimum quantity *)
| ClosedShort (qty : Q)
| ClosedLong (qty : Q)
| TradeSucceeded
| MarginInsufficient
| OrderCrashed.

Inductive Event :=
| Placed (o : Order)
| Notified (n : Notice).

(** Where [execute_trade] left. *)
Inductive Exit :=
| Raised
| Hold
| TestMode
| SlippageCancelled
| BelowMinAmount
| PrecisionFailed
| BelowMinAfterTruncation
| BelowMinCost
| NonPositiveAmount
| InsufficientCoin
| OrderFailed
| Completed.

Record Outcome := mkOutcome {
  final_signal : Signal;
  events : list Event;
  exit : Exit
}.

(** *** get_current_position *)

Fixpoint first_open (sym : string) (lev : Q) (ps : list RawPosition)
  : option Position :=
  match ps with
  | [] => None
  | p :: rest =>
      if (raw_symbol p =? sym) && Py.ltb 0 (Py.or_zero (contracts p))
      then Some (mkPosition (raw_side p)
                            (Py.or_zero (contracts p))
                            (Py.or_zero (entryPrice p))
                            (Py.or_zero (unrealizedPnl p))
                            (if Py.truthy (raw_leverage p)
                             then Py.or_zero (raw_leverage p) else lev)
                            (raw_symbol p))
      else first_open sym lev rest
  end.

Definition get_current_position (t : Trader) (ex : Exchange)
  : option Position :=
  match fetch_positions ex with
  | None => None
  | Some ps => first_open (symbol t) (leverage t) ps
  end.

(** *** The signal gate *)

Definition confidence_levels (k : string) : option Q :=
  if k =? "LOW" then Some 1
  else if k =? "MEDIUM" then Some 2
  else if k =? "HIGH" then Some 3
  else None.

Definition current_conf_val (s : Signal) : Q :=
  match confidence_levels (Py.upper (confidence s)) with
  | Some v => v
  | None => 1
  end.

Definition min_conf_val (t : Trader) : Q :=
  match confidence_levels (Py.upper (min_confidence t)) with
  | Some v => v
  | None => 2
  end.

Definition confidence_suffix (t : Trader) (s : Signal) : string :=
  " [信心过滤: " ++ confidence s ++ " < " ++ min_confidence t ++ "]".

Definition confidence_filter (t : Trader) (s : Signal) : Signal :=
  if Py.ltb (current_conf_val s) (min_conf_val t)
  then set_signal s "HOLD" (reason s ++ confidence_suffix t s)
  else s.

Definition position_pnl_pct (p : Position) (current_price : Q) : Q :=
  if Py.ltb 0 (entry_price p) then
    if side p =? "long"
    then (current_price - entry_price p) / entry_price p
    else (entry_price p - current_price) / entry_price p
  else 0.

Definition round_trip_fee (t : Trader) : Q := taker_fee_rate t * 2.

Definition min_profit_threshold (t : Trader) : Q :=
  round_trip_fee t + 0.0005.

Definition block_reason (t : Trader) (pnl_pct : Q) : string :=
  "[风控拦截] 浮盈 " ++ Py.fmt_fixed 2 (pnl_pct * 100)
    ++ "% 不足以覆盖双向手续费("
    ++ Py.fmt_fixed 3 (round_trip_fee t * 100) ++ "%)".

(** The low-margin band only logs a warning. *)
Definition low_margin_warning (t : Trader) (pnl_pct : Q) : bool :=
  Py.leb (min_profit_threshold t) pnl_pct
  && Py.ltb pnl_pct (min_profit_threshold t + 0.003).

Definition profit_filter (t : Trader) (current_position : option Position)
           (current_price : Q) (s : Signal) : Signal :=
  if signal s =? "SELL" then
    match current_position with
    | Some p =>
        let pnl_pct := position_pnl_pct p current_price in
        if Py.leb 0 pnl_pct && Py.ltb pnl_pct (min_profit_threshold t)
        then set_signal s "HOLD" (block_reason t pnl_pct)
        else s
    | None => s
    end
  else s.

(** *** The slippage guard

    Any failure inside the guard (a missing ticker or candle, a zero
    analysis price) is logged and the trade goes on. *)
Definition price_gap_percent (ex : Exchange) : option Q :=
  match fetch_ticker_last ex with
  | None => None
  | Some current_realtime_price =>
      match ohlcv_price_slippage ex with
      | None => None
      | Some analysis_price =>
          match Py.div (Qabs (current_realtime_price - analysis_price))
                       analysis_price with
          | None => None
          | Some r => Some (r * 100)
          end
      end
  end.

Definition slippage_exceeded (t : Trader) (ex : Exchange) : bool :=
  match price_gap_percent ex with
  | Some gap => Py.ltb (max_slippage t) gap
  | None => false
  end.

(** *** Fund isolation *)

Definition allocated_quota (t : Trader) : Q :=
  if Py.leb (allocation t) 1
  then initial_balance t * allocation t
  else allocation t.

(** Margin positions are not deducted. *)
Definition used_capital (t : Trader) (ex : Exchange) (current_price : Q) : Q :=
  if is_cash (trade_mode t)
  then spot_balance_used ex * current_price
  else 0.

Definition remaining_quota (t : Trader) (ex : Exchange) (current_price : Q)
  : Q :=
  Py.max2 0 (allocated_quota t - used_capital t ex current_price).

Definition effective_balance (t : Trader) (ex : Exchange) (current_price : Q)
  : Q :=
  let real_balance := account_balance ex in
  if Py.ltb 0 (initial_balance t) then
    if Py.ltb (remaining_quota t ex current_price) real_balance
    then remaining_quota t ex current_price
    else real_balance
  else real_balance.

(** *** The position sizer *)

(** [(is_closing_position, max_trade_limit)] for the signal's
    direction; [None] when the division by the price raises. *)
Definition max_trade_limit (t : Trader) (ex : Exchange) (s : Signal)
           (current_price : Q) : option (bool * Q) :=
  let effective := effective_balance t ex current_price in
  if signal s =? "BUY" then
    if is_cash (trade_mode t)
    then option_map (pair false) (Py.div (effective * 0.99) current_price)
    else option_map (pair false)
                    (Py.div (effective * leverage t * 0.99) current_price)
  else if signal s =? "SELL" then
    if is_cash (trade_mode t)
    then Some (true, spot_balance_sell ex)
    else option_map (pair false)
                    (Py.div (effective * leverage t * 0.99) current_price)
  else Some (false, 0).

Definition select_amount (t : Trader) (s : Signal)
           (is_closing_position : bool) (limit : Q) : Q :=
  let config_amount := self_amount t in
  let ai_suggest_amount := amount s in
  if is_closing_position then Py.min2 ai_suggest_amount limit
  else if Py.upper (confidence s) =? "HIGH"
       then Py.min2 ai_suggest_amount limit
       else Py.min3 config_amount ai_suggest_amount limit.

Definition is_buy (s : Signal) : bool := signal s =? "BUY".

Definition below_min (m : option Q) (x : Q) : bool :=
  match m with
  | Some mn => Py.ltb x mn
  | None => false
  end.

(** The minimum-notional step, on the truncated amount. *)
Definition min_cost_step (ex : Exchange) (m : Market) (s : Signal)
           (current_price limit trade_amount : Q) : Exit + Q :=
  match min_cost m with
  | None => inr trade_amount
  | Some mc =>
      if Py.ltb (trade_amount * current_price) mc then
        if Py.leb mc (limit * current_price) && is_buy s then
          match Py.div mc current_price with
          | None => inr (Py.round4 trade_amount)
          | Some per_unit =>
              match amount_to_precision ex (per_unit * 1.05) with
              | None => inr (Py.round4 trade_amount)
              | Some precise_req_amount => inr precise_req_amount
              end
          end
        else inl BelowMinCost
      else inr trade_amount
  end.

(** Exchange rules on the sized amount: the events issued and either
    the exit taken or the amount that goes to order placement.  When
    [exchange.market] raises, the handler rounds the amount to four
    decimals and the trade goes on. *)
Definition venue_rules (ex : Exchange) (s : Signal)
           (current_price limit trade_amount : Q)
  : list Event * (Exit + Q) :=
  match market ex with
  | None => ([], inr (Py.round4 trade_amount))
  | Some m =>
      let raised_amount :=
        match min_amount m with
        | Some mn =>
            if Py.ltb trade_amount mn then
              if Py.leb mn limit && is_buy s then Some mn else None
            else Some trade_amount
        | None => Some trade_amount
        end in
      match raised_amount with
      | None => ([Notified CannotOrder], inl BelowMinAmount)
      | Some a1 =>
          match amount_to_precision ex a1 with
          | None => ([], inl PrecisionFailed)
          | Some a2 =>
              if below_min (min_amount m) a2
              then ([], inl BelowMinAfterTruncation)
              else ([], min_cost_step ex m s current_price limit a2)
          end
      end
  end.

(** The sizer as a whole: the events issued and either the exit taken
    or [(max_trade_limit, trade_amount)], the amount being the one
    that goes to order placement. *)
Definition sizing (t : Trader) (ex : Exchange) (s : Signal)
  : list Event * (Exit + Q * Q) :=
  match ohlcv_price_sizing ex with
  | None => ([], inl Raised)
  | Some current_price =>
      match max_trade_limit t ex s current_price with
      | None => ([], inl Raised)
      | Some (is_closing_position, limit) =>
          match venue_rules ex s current_price limit
                            (select_amount t s is_closing_position limit) with
          | (evs, inl e) => (evs, inl e)
          | (evs, inr trade_amount) =>
              if Py.leb trade_amount 0 then (evs, inl NonPositiveAmount)
              else (evs, inr (limit, trade_amount))
          end
      end
  end.

(** *** The execution router *)

Definition failure_notice (r : OrderReply) : Notice :=
  match r with
  | Rejected true => MarginInsufficient
  | _ => OrderCrashed
  end.

(** One [create_market_order] followed by the confirmation. *)
Definition submit (ex : Exchange) (o : Order) : list Event * Exit :=
  match create_market_order ex o with
  | Filled => ([Placed o; Notified TradeSucceeded], Completed)
  | r => ([Placed o; Notified (failure_notice r)], OrderFailed)
  end.

Definition opposes (s : Signal) (p : Position) : bool :=
  if signal s =? "BUY" then side p =? "short"
  else if signal s =? "SELL" then side p =? "long"
  else false.

Definition known_side (p : Position) : bool :=
  (side p =? "long") || (side p =? "short").

(** The margin branch for one direction: [opposite] is the side of a
    position that the signal reverses.  The reduce-only close of such
    a position comes first; the entry follows for a position on either
    known side and when there is none. *)
Definition margin_orders (t : Trader) (ex : Exchange)
           (current_position : option Position)
           (direction : OrderSide) (opposite : string)
           (closed : Q -> Notice) (trade_amount : Q) : list Event * Exit :=
  let entry := mkOrder direction trade_amount false (Some (trade_mode t)) in
  match current_position with
  | None => submit ex entry
  | Some p =>
      if side p =? opposite then
        let close := mkOrder direction (size p) true None in
        match create_market_order ex close with
        | Filled =>
            let '(evs, e) := submit ex entry in
            (Placed close :: Notified (closed (size p)) :: evs, e)
        | r => ([Placed close; Notified (failure_notice r)], OrderFailed)
        end
      else if known_side p then submit ex entry
      else ([], Completed)
  end.

Definition place_orders (t : Trader) (ex : Exchange) (s : Signal)
           (current_position : option Position) (trade_amount : Q)
  : list Event * Exit :=
  if is_cash (trade_mode t) then
    if signal s =? "BUY" then
      submit ex (mkOrder buy trade_amount false None)
    else if signal s =? "SELL" then
      match coin_balance ex with
      | None => ([Notified OrderCrashed], OrderFailed)
      | Some held =>
          if Py.leb trade_amount held
          then submit ex (mkOrder sell trade_amount false None)
          else ([], InsufficientCoin)
      end
    else ([], Completed)
  else
    if signal s =? "BUY" then
      margin_orders t ex current_position buy "short" ClosedShort trade_amount
    else if signal s =? "SELL" then
      margin_orders t ex current_position sell "long" ClosedLong trade_amount
    else ([], Completed).

(** *** execute_trade *)

Definition sizing_and_routing (t : Trader) (ex : Exchange) (s : Signal)
           (current_position : option Position) : list Event * Exit :=
  match sizing t ex s with
  | (evs, inl e) => (evs, e)
  | (evs, inr (_, trade_amount)) =>
      let '(evs', e) := place_orders t ex s current_position trade_amount in
      ((evs ++ evs')%list, e)
  end.

Definition execute_trade (t : Trader) (ex : Exchange) (signal_data : Signal)
  : Outcome :=
  let current_position := get_current_position t ex in
  match ohlcv_price_entry ex with
  | None => mkOutcome signal_data [] Raised
  | Some current_price =>
      let s1 := confidence_filter t signal_data in
      if signal s1 =? "HOLD" then mkOutcome s1 [] Hold
      else
        let s2 := profit_filter t current_position current_price s1 in
        if test_mode t then mkOutcome s2 [] TestMode
        else if slippage_exceeded t ex
        then mkOutcome s2 [Notified TradeCancelled] SlippageCancelled
        else
          let '(evs, e) := sizing_and_routing t ex s2 current_position in
          mkOutcome s2 evs e
  end.

(** The orders sent to the exchange, in order. *)
Fixpoint orders (evs : list Event) : list Order :=
  match evs with
  | [] => []
  | Placed o :: rest => o :: orders rest
  | Notified _ :: rest => orders rest
  end.

End DeepSeekTrader.

(** ** RiskManager *)

Module RiskManager.

Local Open Scope string_scope.

(** One row of [pnl_history.csv]. *)
Record LedgerEntry := mkLedgerEntry {
  row_timestamp : Q;
  total_equity : Q;
  pnl_usdt : Q;
  pnl_percent : Q
}.

(** [self], together with the two files it owns: [state_file] is the
    content of [bot_state.json] ([None] while the file does not
    exist) and [pnl_history] the rows of the ledger, oldest first.
    Writing either file is taken to succeed. *)
Record State := mkState {
  initial_balance : Q;                (* 0 when not configured *)
  max_profit : option Q;
  max_loss : option Q;
  max_profit_pct : option Q;
  max_loss_pct : option Q;
  smart_baseline : option Q;
  last_chart_display_time : Q;
  state_file : option (option Q);
  pnl_history : list LedgerEntry
}.

(** One entry of [balance['info']['data'][0]['details']]. *)
Record Asset := mkAsset {
  ccy : string;
  eq : Q
}.

(** [balance['USDT']]; an absent key is [None]. *)
Record UsdtEntry := mkUsdtEntry {
  equity : option Q;
  total : option Q
}.

Record Balance := mkBalance {
  info_data : option (list (list Asset));
  usdt : option UsdtEntry
}.

(** The per-symbol reads made while valuing the holdings. *)
Record Wire := mkWire {
  fetch_tickers : option (list (string * Q));
  fetch_ticker : string -> option Q;
  get_spot_balance : string -> Q;
  get_ohlcv_price : string -> option Q
}.

(** What the outside world answers during one call of [check]. *)
Record World := mkWorld {
  fetch_balance : option Balance;
  wire_init : Wire;                   (* reads of initialize_baseline *)
  wire_check : Wire;                  (* reads of check itself *)
  now : Q                             (* time.time() *)
}.

Inductive Trigger :=
| ProfitAmount
| ProfitRate
| LossAmount
| LossRate.

Inductive Event :=
| CloseAllTraders
| Notified (k : Trigger)
| SysExit.

(** *** save_state *)

Definition save_state (rm : State) : State :=
  mkState (initial_balance rm) (max_profit rm) (max_loss rm)
          (max_profit_pct rm) (max_loss_pct rm) (smart_baseline rm)
          (last_chart_display_time rm)
          (Some (smart_baseline rm)) (pnl_history rm).

Definition set_baseline (rm : State) (b : option Q) : State :=
  mkState (initial_balance rm) (max_profit rm) (max_loss rm)
          (max_profit_pct rm) (max_loss_pct rm) b
          (last_chart_display_time rm)
          (state_file rm) (pnl_history rm).

(** *** Prices *)

Fixpoint prices_get (prices : list (string * Q)) (s : string) : Q :=
  match prices with
  | [] => 0
  | (k, v) :: rest => if k =? s then v else prices_get rest s
  end.

(** [prices], filled from the batched tickers; empty when the batch
    fails. *)
Definition prices_of (w : Wire) : list (string * Q) :=
  match fetch_tickers w with
  | Some l => l
  | None => []
  end.

(** *** initialize_baseline *)

Definition init_price (w : Wire) (t : DeepSeekTrader.Trader) : Q :=
  let current_price := prices_get (prices_of w) (DeepSeekTrader.symbol t) in
  if Py.eqb current_price 0 then
    match get_ohlcv_price w (DeepSeekTrader.symbol t) with
    | Some p => p
    | None => current_price
    end
  else current_price.

Fixpoint total_position_value (w : Wire)
         (traders : list DeepSeekTrader.Trader) : Q :=
  match traders with
  | [] => 0
  | t :: rest =>
      let current_price := init_price w t in
      let holding_amount := get_spot_balance w (DeepSeekTrader.symbol t) in
      (if DeepSeekTrader.is_cash (DeepSeekTrader.trade_mode t)
          && Py.ltb 0 holding_amount && Py.ltb 0 current_price
       then holding_amount * current_price
       else 0)
      + total_position_value w rest
  end.

Definition real_total_equity (w : Wire)
           (traders : list DeepSeekTrader.Trader)
           (current_usdt_equity : Q) : Q :=
  current_usdt_equity + total_position_value w traders.

Definition gap_percent (rm : State) (real : Q) : Q :=
  Qabs (real - initial_balance rm) / initial_balance rm * 100.

Definition calibrate (rm : State) (real : Q) : option Q :=
  if Py.ltb 0 (initial_balance rm) then
    if Py.ltb 10 (gap_percent rm real) then Some real
    else if Py.truthy (smart_baseline rm) then smart_baseline rm
         else Some (initial_balance rm)
  else if Py.truthy (smart_baseline rm) then smart_baseline rm
       else Some real.

Definition initialize_baseline (rm : State) (w : Wire)
           (traders : list DeepSeekTrader.Trader)
           (current_usdt_equity : Q) : State :=
  save_state
    (set_baseline rm
       (calibrate rm (real_total_equity w traders current_usdt_equity))).

(** *** check *)

Fixpoint find_usdt (details : list Asset) : option Q :=
  match details with
  | [] => None
  | a :: rest => if ccy a =? "USDT" then Some (eq a) else find_usdt rest
  end.

Definition fallback_equity (b : Balance) : Q :=
  match usdt b with
  | Some u =>
      match equity u with
      | Some e => e
      | None => Py.or_zero (total u)
      end
  | None => 0
  end.

(** The USDT equity read from the balance; [None] when reading it
    raises. *)
Definition usdt_equity (b : Balance) : option Q :=
  match info_data b with
  | Some [] => None
  | Some (details :: _) =>
      match find_usdt details with
      | Some e => Some e
      | None => Some (fallback_equity b)
      end
  | None => Some (fallback_equity b)
  end.

Definition check_price (w : Wire) (t : DeepSeekTrader.Trader) : Q :=
  let price := prices_get (prices_of w) (DeepSeekTrader.symbol t) in
  if Py.eqb price 0 then
    match fetch_ticker w (DeepSeekTrader.symbol t) with
    | Some p => p
    | None => price
    end
  else price.

(** The batched tickers are requested only when some trader is in
    spot mode. *)
Definition check_wire (w : Wire) (traders : list DeepSeekTrader.Trader)
  : Wire :=
  if existsb (fun t => DeepSeekTrader.is_cash (DeepSeekTrader.trade_mode t))
             traders
  then w
  else mkWire None (fetch_ticker w) (get_spot_balance w) (get_ohlcv_price w).

Fixpoint spot_value (w : Wire) (traders : list DeepSeekTrader.Trader) : Q :=
  match traders with
  | [] => 0
  | t :: rest =>
      let spot_bal := get_spot_balance w (DeepSeekTrader.symbol t) in
      (if DeepSeekTrader.is_cash (DeepSeekTrader.trade_mode t)
          && Py.ltb 0 spot_bal
       then spot_bal * check_price w t
       else 0)
      + spot_value w rest
  end.

Definition take_profit_trigger (rm : State) (current_pnl pnl_pct : Q)
  : option Trigger :=
  if Py.truthy (max_profit rm)
     && Py.leb (Py.or_zero (max_profit rm)) current_pnl
  then Some ProfitAmount
  else if Py.truthy (max_profit_pct rm)
          && Py.leb (Py.or_zero (max_profit_pct rm) * 100) pnl_pct
       then Some ProfitRate
       else None.

Definition stop_loss_trigger (rm : State) (current_pnl pnl_pct : Q)
  : option Trigger :=
  if Py.truthy (max_loss rm)
     && Py.leb current_pnl (- Py.or_zero (max_loss rm))
  then Some LossAmount
  else if Py.truthy (max_loss_pct rm)
          && Py.leb pnl_pct (- (Py.or_zero (max_loss_pct rm) * 100))
       then Some LossRate
       else None.

(** The take-profit block runs first and exits the process when it
    fires; the stop-loss block runs only when it did not. *)
Definition halt_events (rm : State) (current_pnl pnl_pct : Q) : list Event :=
  match take_profit_trigger rm current_pnl pnl_pct with
  | Some k => [CloseAllTraders; Notified k; SysExit]
  | None =>
      match stop_loss_trigger rm current_pnl pnl_pct with
      | Some k => [CloseAllTraders; Notified k; SysExit]
      | None => []
      end
  end.

(** [record_pnl_to_csv], then the hourly chart. *)
Definition record_cycle (rm : State) (w : World)
           (value current_pnl pnl_pct : Q) : State :=
  mkState (initial_balance rm) (max_profit rm) (max_loss rm)
          (max_profit_pct rm) (max_loss_pct rm) (smart_baseline rm)
          (if Py.ltb 3600 (now w - last_chart_display_time rm)
           then now w else last_chart_display_time rm)
          (state_file rm)
          (pnl_history rm
             ++ [mkLedgerEntry (now w) value current_pnl pnl_pct])%list.

Definition monitor (rm : State) (w : World)
           (traders : list DeepSeekTrader.Trader) (usdt_eq : Q)
  : State * list Event :=
  let current_total_value :=
    usdt_eq + spot_value (check_wire (wire_check w) traders) traders in
  match smart_baseline rm with
  | None => (rm, [])
  | Some baseline =>
      if Py.eqb baseline 0 || Py.leb baseline 0 then (rm, [])
      else
        let current_pnl := current_total_value - baseline in
        let pnl_pct := current_pnl / baseline * 100 in
        (record_cycle rm w current_total_value current_pnl pnl_pct,
         halt_events rm current_pnl pnl_pct)
  end.

(** The USDT equity of this cycle; [None] when fetching or reading
    the balance raises. *)
Definition read_equity (w : World) : option Q :=
  match fetch_balance w with
  | None => None
  | Some balance => usdt_equity balance
  end.

(** The baseline is initialised only while it is [None]. *)
Definition ensure_baseline (rm : State) (w : World)
           (traders : list DeepSeekTrader.Trader) (usdt_eq : Q) : State :=
  match smart_baseline rm with
  | None => initialize_baseline rm (wire_init w) traders usdt_eq
  | Some _ => rm
  end.

Definition check (rm : State) (w : World)
           (traders : list DeepSeekTrader.Trader) : State * list Event :=
  match read_equity w with
  | None => (rm, [])
  | Some usdt_eq =>
      if Py.leb usdt_eq 0 then (rm, [])
      else monitor (ensure_baseline rm w traders usdt_eq) w traders usdt_eq
  end.

End RiskManager.

(** ** The halting rule, as the specification words it

    Four thresholds in a fixed order: take-profit by amount,
    take-profit by rate, stop-loss by amount, stop-loss by rate.  A
    threshold counts as configured when its value is true in Python's
    sense (present and not 0); the first configured threshold that is
    breached halts. *)

Module RiskRules.

Import RiskManager.

Definition threshold (rm : State) (k : Trigger) : option Q :=
  match k with
  | ProfitAmount => max_profit rm
  | ProfitRate => max_profit_pct rm
  | LossAmount => max_loss rm
  | LossRate => max_loss_pct rm
  end.

Definition reached (k : Trigger) (v current_pnl pnl_pct : Q) : bool :=
  match k with
  | ProfitAmount => Py.leb v current_pnl
  | ProfitRate => Py.leb (v * 100) pnl_pct
  | LossAmount => Py.leb current_pnl (- v)
  | LossRate => Py.leb pnl_pct (- (v * 100))
  end.

Definition breached (rm : State) (current_pnl pnl_pct : Q) (k : Trigger)
  : bool :=
  match threshold rm k with
  | Some v => negb (Py.eqb v 0) && reached k v current_pnl pnl_pct
  | None => false
  end.

Definition evaluation_order : list Trigger :=
  [ProfitAmount; ProfitRate; LossAmount; LossRate].

Definition first_breach (rm : State) (current_pnl pnl_pct : Q)
  : option Trigger :=
  find (breached rm current_pnl pnl_pct) evaluation_order.

Definition halt (k : Trigger) : list Event :=
  [CloseAllTraders; Notified k; SysExit].

End RiskRules.


(** ** Scenarios

    Concrete traders, signals and exchange answers on which the
    statements below are exercised. *)

Module Scenario.

Import DeepSeekTrader.
Local Open Scope string_scope.

(** An exchange that truncates amounts to [d] decimals. *)
Definition truncate (d : nat) (q : Q) : option Q :=
  Some (inject_Z (Qfloor (q * inject_Z (10 ^ Z.of_nat d)))
        / inject_Z (10 ^ Z.of_nat d)).

Definition always_filled (o : Order) : OrderReply := Filled.

(** A cross-margin perpetual with the default spot taker fee. *)
Definition swap_trader : Trader :=
  mkTrader "ETH/USDT:USDT" 1 1 10 cross false 1 "MEDIUM" 0.001 0.

Definition spot_trader : Trader :=
  mkTrader "ETH/USDT" 1 1 1 cash false 1 "MEDIUM" 0.001 0.

Definition sell_signal : Signal :=
  mkSignal "SELL" "MEDIUM" 1 "take profit" None None "2025-01-01 00:00:00".

Definition weak_sell_signal : Signal :=
  mkSignal "SELL" "low" 1 "take profit" None None "2025-01-01 00:00:00".

Definition buy_signal : Signal :=
  mkSignal "BUY" "MEDIUM" 1 "breakout" None None "2025-01-01 00:00:00".

Definition long_at_100 : RawPosition :=
  mkRawPosition "ETH/USDT:USDT" (Some 2) "long" (Some 100) (Some 0) None.

(** The answers of a quiet market at [price]: every price read
    agrees, 1000 USDT free, no exchange limits. *)
Definition quiet (positions : list RawPosition) (price : Q) : Exchange :=
  mkExchange (Some positions) (Some price) (Some price) (Some price)
             (Some price) 1000 0 0 (Some (mkMarket None None))
             (truncate 4) (Some 0) always_filled.

(** A SELL for more than is held. *)
Definition big_sell_signal : Signal :=
  mkSignal "SELL" "MEDIUM" 30 "exit" None None "2025-01-01 00:00:00".

(** A long of 2 contracts with no free USDT left. *)
Definition no_free_margin : Exchange :=
  mkExchange (Some [long_at_100]) (Some 101) (Some 101) (Some 101)
             (Some 101) 0 0 0 (Some (mkMarket None None))
             (truncate 4) (Some 0) always_filled.


(** A spot trader with a quota of 100 USDT (the whole of the
    configured capital). *)
Definition quota_trader : Trader :=
  mkTrader "ETH/USDT" 1 1 1 cash false 1 "MEDIUM" 0.001 100.

(** 20 coins held at a price of 2, 200 USDT free. *)
Definition holding_forty : Exchange :=
  mkExchange (Some []) (Some 2) (Some 2) (Some 2) (Some 2)
             200 20 20 (Some (mkMarket None None))
             (truncate 4) (Some 20) always_filled.

(** 10.2 USDT free at a price of 2, on a market whose minimum order
    value is 10 USDT. *)
Definition thin_account : Exchange :=
  mkExchange (Some []) (Some 2) (Some 2) (Some 2) (Some 2)
             10.2 0 0 (Some (mkMarket None (Some 10)))
             (truncate 4) (Some 0) always_filled.

(** The same trader with another configured amount, allocation and
    capital, and the same answers with other free funds. *)
Definition requota (t : Trader) (amount' allocation' initial' : Q) : Trader :=
  mkTrader (symbol t) amount' allocation' (leverage t) (trade_mode t)
           (test_mode t) (max_slippage t) (min_confidence t)
           (taker_fee_rate t) initial'.

Definition refund (ex : Exchange) (balance' used' : Q) : Exchange :=
  mkExchange (fetch_positions ex) (ohlcv_price_entry ex)
             (fetch_ticker_last ex) (ohlcv_price_slippage ex)
             (ohlcv_price_sizing ex) balance' used' (spot_balance_sell ex)
             (market ex) (amount_to_precision ex) (coin_balance ex)
             (create_market_order ex).


(** A risk manager with 1000 USDT configured, a 100 USDT take-profit
    and a 10% stop-loss, started without a state file. *)
Definition fresh_manager : RiskManager.State :=
  RiskManager.mkState 1000 (Some 100) None None (Some 0.1) None 0 None [].

Definition no_wire : RiskManager.Wire :=
  RiskManager.mkWire None (fun _ => None) (fun _ => 0) (fun _ => None).

(** A unified account whose USDT equity is [e]. *)
Definition world_with_equity (e : Q) : RiskManager.World :=
  RiskManager.mkWorld
    (Some (RiskManager.mkBalance
             (Some [[RiskManager.mkAsset "BTC" 1;
                     RiskManager.mkAsset "USDT" e]])
             None))
    no_wire no_wire 5000.

Definition offline_world : RiskManager.World :=
  RiskManager.mkWorld None no_wire no_wire 5000.


End Scenario.

(** ** The rest of DeepSeekTrader

    The helpers around [execute_trade]: the volatility classifier, the
    automatic order amount, the fee refresh, the entry-price and
    balance lookups, the rolling histories and the forced close. *)

Module TraderOps.

Import DeepSeekTrader.
Local Open Scope string_scope.

(** *** get_market_volatility *)

(** One entry of [kline_data]; only [high] and [low] are read. *)
Record Candle := mkCandle {
  high : Q;
  low : Q
}.

Inductive Volatility := HIGH_TREND | HIGH_CHOPPY | LOW | NORMAL.

Fixpoint ranges (kline_data : list Candle) : list Q :=
  match kline_data with
  | [] => []
  | k :: rest =>
      if Py.ltb 0 (low k)
      then ((high k - low k) / low k * 100) :: ranges rest
      else ranges rest
  end.

(** [sum(l)]. *)
Definition py_sum (l : list Q) : Q := fold_left Qplus l 0.

Definition py_len {A : Type} (l : list A) : Q :=
  inject_Z (Z.of_nat (length l)).

(** Any exception, the division by an empty [ranges] included, gives
    NORMAL. *)
Definition get_market_volatility (kline_data : list Candle)
           (adx_value : option Q) : Volatility :=
  if (length kline_data <? 5)%nat then NORMAL
  else
    match Py.div (py_sum (ranges kline_data)) (py_len (ranges kline_data)) with
    | None => NORMAL
    | Some avg_volatility =>
        let is_trending :=
          match adx_value with
          | Some a => Py.ltb 25 a
          | None => false
          end in
        if Py.ltb 0.5 avg_volatility then
          if is_trending then HIGH_TREND else HIGH_CHOPPY
        else if Py.ltb avg_volatility 0.1 then LOW
        else NORMAL
    end.

(** The [indicators] dictionary that [get_ohlcv] builds: seven keys,
    each holding a number or [None]. *)
Definition ohlcv_indicators
           (rsi macd signal_line macd_hist upper_band lower_band sma_20
            : option Q) : list (string * option Q) :=
  [("rsi", rsi); ("macd", macd); ("macd_signal", signal_line);
   ("macd_hist", macd_hist); ("bb_upper", upper_band);
   ("bb_lower", lower_band); ("bb_middle", sma_20)].

(** [ind.get(key)]. *)
Fixpoint ind_get (ind : list (string * option Q)) (key : string) : option Q :=
  match ind with
  | [] => None
  | (k, v) :: rest => if k =? key then v else ind_get rest key
  end.

(** The status that [analyze_with_deepseek] picks its persona from. *)
Definition volatility_status (kline_data : list Candle)
           (indicators : list (string * option Q)) : Volatility :=
  get_market_volatility kline_data (ind_get indicators "adx").

(** *** _update_amount_auto *)

Definition target_usdt (t : Trader) (m : Market) : Q :=
  let quota :=
    if Py.ltb 0 (initial_balance t) then allocated_quota t else 0 in
  let target := if Py.leb quota 0 then 10 else quota * 0.1 in
  if Py.truthy (min_cost m)
  then Py.max2 target (Py.or_zero (min_cost m) * 1.5)
  else Py.max2 target 5.

(** The value left in [self.amount]. [config_amount] is [None] for
    ["auto"] and for anything that is not a number. *)
Definition update_amount_auto (config_amount : option Q) (t : Trader)
           (ex : Exchange) (current_price : Q) : Q :=
  let automatic :=
    match market ex with
    | None => 0
    | Some m =>
        match Py.div (target_usdt t m) current_price with
        | None => 0
        | Some raw_amount =>
            match amount_to_precision ex raw_amount with
            | None => 0
            | Some precise => precise
            end
        end
    end in
  match config_amount with
  | Some c => if Py.ltb 0 c then c else automatic
  | None => automatic
  end.

(** *** _update_fee_rate *)

(** A key of the fee dictionary: absent, present with [None], or
    present with a number. *)
Inductive Field := Absent | Null | Value (q : Q).

Record Fees := mkFees {
  taker : Field;
  maker : Field
}.

(** [float(fees.get(key, default))]; [None] when [float] raises. *)
Definition field_float (f : Field) (default : Q) : option Q :=
  match f with
  | Absent => Some default
  | Null => None
  | Value q => Some q
  end.

(** [(taker_fee_rate, maker_fee_rate)] after the refresh; [fees] is
    [None] when the fetch raises or returns nothing. *)
Definition update_fee_rate (rates : Q * Q) (fees : option Fees) : Q * Q :=
  match fees with
  | None => rates
  | Some f =>
      match field_float (taker f) (fst rates) with
      | None => rates
      | Some new_taker =>
          match field_float (maker f) (snd rates) with
          | None => rates
          | Some new_maker =>
              if Py.eqb new_taker (fst rates) && Py.eqb new_maker (snd rates)
              then rates
              else (new_taker, new_maker)
          end
      end
  end.

(** *** get_avg_entry_price *)

(** One entry of [fetch_my_trades], oldest first. *)
Record Trade := mkTrade {
  trade_side : string;
  trade_price : Q
}.

Fixpoint first_buy (trades : list Trade) : Q :=
  match trades with
  | [] => 0
  | tr :: rest =>
      if trade_side tr =? "buy" then trade_price tr else first_buy rest
  end.

Definition get_avg_entry_price (t : Trader) (ex : Exchange)
           (fetch_my_trades : option (list Trade)) : Q :=
  let from_trades :=
    match fetch_my_trades with
    | None => 0
    | Some trades => first_buy (rev trades)
    end in
  match get_current_position t ex with
  | Some pos =>
      if Py.ltb 0 (entry_price pos) then entry_price pos else from_trades
  | None => from_trades
  end.

(** *** get_spot_balance and get_account_balance *)

(** The balance dictionary as the trader reads it: the free amount
    under each currency key, and the [details] of a unified account
    with their [availBal]. *)
Record Funds := mkFunds {
  free : list (string * Q);
  details : option (list (list (string * Q)))
}.

Fixpoint assoc (l : list (string * Q)) (key : string) : option Q :=
  match l with
  | [] => None
  | (k, v) :: rest => if k =? key then Some v else assoc rest key
  end.

(** [symbol.split('/')[0]]. *)
Fixpoint base_currency (sym : string) : string :=
  match sym with
  | EmptyString => EmptyString
  | String c rest =>
      if Ascii.eqb c "/"%char then EmptyString
      else String c (base_currency rest)
  end.

(** The loop over [balance['info']['data'][0]['details']]: [None] when
    indexing raises, [Some None] when the currency is not listed. *)
Definition in_details (b : Funds) (key : string) : option (option Q) :=
  match details b with
  | None => Some None
  | Some [] => None
  | Some (d :: _) => Some (assoc d key)
  end.

Definition get_spot_balance (sym : string) (fetch_balance : option Funds) : Q :=
  match fetch_balance with
  | None => 0
  | Some b =>
      match assoc (free b) (base_currency sym) with
      | Some v => v
      | None =>
          match in_details b (base_currency sym) with
          | Some (Some v) => v
          | _ => 0
          end
      end
  end.

(** USDT first; the base currency of the symbol when no USDT is
    listed. *)
Definition get_account_balance (sym : string) (fetch_balance : option Funds)
  : Q :=
  match fetch_balance with
  | None => 0
  | Some b =>
      match assoc (free b) "USDT" with
      | Some v => v
      | None =>
          match in_details b "USDT" with
          | None => 0
          | Some (Some v) => v
          | Some None =>
              match assoc (free b) (base_currency sym) with
              | Some v => v
              | None =>
                  match in_details b (base_currency sym) with
                  | Some (Some v) => v
                  | _ => 0
                  end
              end
          end
      end
  end.

(** *** The rolling histories *)

(** [history.append(x)], then one [pop(0)] when the limit is
    exceeded. *)
Definition push_bounded {A : Type} (limit : nat) (history : list A) (x : A)
  : list A :=
  if (limit <? length (history ++ [x]))%nat
  then tl (history ++ [x])
  else history ++ [x].

(** [df.tail(n)]. *)
Definition tail_rows {A : Type} (n : nat) (rows : list A) : list A :=
  skipn (length rows - n) rows.

(** The warm-up of [get_ohlcv]: an empty history is filled with the
    last [history_limit] candles when more than that were fetched. *)
Definition warm_up {A : Type} (history_limit : nat) (price_history rows : list A)
  : list A :=
  match price_history with
  | [] =>
      if (history_limit <? length rows)%nat
      then tail_rows history_limit rows
      else []
  | _ => price_history
  end.

(** *** close_all_positions *)

(** The order sent, if any; its reply is not read. *)
Definition close_all_positions (t : Trader) (ex : Exchange) : list Order :=
  match get_current_position t ex with
  | Some pos =>
      [mkOrder (if side pos =? "short" then buy else sell)
               (size pos) true None]
  | None => []
  end.

End TraderOps.

(** ** The rest of RiskManager *)

Module RiskOps.

Import RiskManager.
Local Open Scope string_scope.

(** *** close_all_traders *)

(** Each trader with what the exchange answers it; a failure on one
    is logged and the loop goes on. *)
Definition close_all_traders
           (traders : list (DeepSeekTrader.Trader * DeepSeekTrader.Exchange))
  : list DeepSeekTrader.Order :=
  flat_map (fun te => TraderOps.close_all_positions (fst te) (snd te)) traders.

(** *** record_pnl_to_csv, on the lines of the file *)

Definition csv_header : string :=
  "timestamp,total_equity,pnl_usdt,pnl_percent".

Definition csv_row (timestamp : string) (total_equity current_pnl pnl_percent : Q)
  : string :=
  timestamp ++ "," ++ Py.fmt_fixed 2 total_equity
            ++ "," ++ Py.fmt_fixed 2 current_pnl
            ++ "," ++ Py.fmt_fixed 2 pnl_percent.

(** The file is [None] while it does not exist. *)
Definition record_pnl_to_csv (file : option (list string)) (timestamp : string)
           (total_equity current_pnl pnl_percent : Q) : option (list string) :=
  Some ((match file with
         | None => [csv_header]
         | Some lines => lines
         end)
          ++ [csv_row timestamp total_equity current_pnl pnl_percent])%list.

(** *** load_state and the start of the process *)

(** [state.get('smart_baseline')] of an existing, readable file. *)
Definition load_state (file : option (option Q)) : option Q :=
  match file with
  | Some b => b
  | None => None
  end.

(** [RiskManager.__init__] on the files a previous run left. *)
Definition restart (rm : State) : State :=
  mkState (initial_balance rm) (max_profit rm) (max_loss rm)
          (max_profit_pct rm) (max_loss_pct rm)
          (load_state (state_file rm)) 0
          (state_file rm) (pnl_history rm).

(** The start of [main]: a new manager, then the explicit
    [initialize_baseline(start_equity)]. *)
Definition startup (rm : State) (w : Wire)
           (traders : list DeepSeekTrader.Trader) (start_equity : Q) : State :=
  initialize_baseline (restart rm) w traders start_equity.

End RiskOps.


(** ** Further scenarios *)

Module Cases.

Import DeepSeekTrader TraderOps.
Local Open Scope string_scope.

(** Five candles of 2% range. *)
Definition calm_candles : list Candle :=
  [mkCandle 1.02 1; mkCandle 1.02 1; mkCandle 1.02 1;
   mkCandle 1.02 1; mkCandle 1.02 1].

(** Five candles whose low is reported as 0. *)
Definition unpriced_candles : list Candle :=
  [mkCandle 5 0; mkCandle 6 0; mkCandle 7 0; mkCandle 8 0; mkCandle 9 0].

(** A symbol part without a slash. *)
Fixpoint no_slash (s : string) : bool :=
  match s with
  | EmptyString => true
  | String c rest => negb (Ascii.eqb c "/"%char) && no_slash rest
  end.

(** A unified account that lists 3 ETH and no USDT. *)
Definition coin_only_funds : Funds :=
  mkFunds [] (Some [[("ETH", 3)]]).

(** A fee answer whose maker rate is null. *)
Definition half_fees : Fees := mkFees (Value 0.0008) Null.

Definition three_trades : list Trade :=
  [mkTrade "buy" 90; mkTrade "buy" 95; mkTrade "sell" 99].


(** A long of 2 contracts whose entry price the exchange leaves out. *)
Definition long_unpriced : RawPosition :=
  mkRawPosition "ETH/USDT:USDT" (Some 2) "long" None (Some 0) None.


(** One call of [record_pnl_to_csv] for a row given as timestamp,
    equity, profit and percentage, and the line it writes. *)
Definition write_row (file : option (list string)) (r : string * Q * Q * Q)
  : option (list string) :=
  let '(ts, e, p, pct) := r in RiskOps.record_pnl_to_csv file ts e p pct.

Definition row_text (r : string * Q * Q * Q) : string :=
  let '(ts, e, p, pct) := r in RiskOps.csv_row ts e p pct.


(** Whether the exchange reports an open contracts position of the
    trader's symbol. *)
Definition holds_position (te : Trader * Exchange) : bool :=
  match get_current_position (fst te) (snd te) with
  | Some _ => true
  | None => false
  end.

End Cases.

(** ** Facts about the Python layer *)

Module PyFacts.

Lemma ltb_true (x y : Q) : Py.ltb x y = true <-> x < y.
Proof.
  unfold Py.ltb. rewrite negb_true_iff, <- not_true_iff_false, Qle_bool_iff.
  split; intro H; lra.
Qed.

Lemma ltb_false (x y : Q) : Py.ltb x y = false <-> y <= x.
Proof.
  unfold Py.ltb. rewrite negb_false_iff, Qle_bool_iff. reflexivity.
Qed.

Lemma leb_true (x y : Q) : Py.leb x y = true <-> x <= y.
Proof. apply Qle_bool_iff. Qed.

Lemma leb_false (x y : Q) : Py.leb x y = false <-> y < x.
Proof.
  unfold Py.leb. rewrite <- not_true_iff_false, Qle_bool_iff.
  split; intro H; lra.
Qed.

Lemma eqb_true (x y : Q) : Py.eqb x y = true <-> x == y.
Proof. apply Qeq_bool_iff. Qed.

Lemma eqb_false (x y : Q) : Py.eqb x y = false <-> ~ x == y.
Proof.
  unfold Py.eqb. rewrite <- not_true_iff_false, Qeq_bool_iff. reflexivity.
Qed.

(** Turn every boolean comparison among the hypotheses into its
    proposition. *)
Ltac reflect_cmp :=
  repeat match goal with
    | H : Py.ltb _ _ = true |- _ => apply ltb_true in H
    | H : Py.ltb _ _ = false |- _ => apply ltb_false in H
    | H : Py.leb _ _ = true |- _ => apply leb_true in H
    | H : Py.leb _ _ = false |- _ => apply leb_false in H
    | H : Py.eqb _ _ = true |- _ => apply eqb_true in H
    | H : Py.eqb _ _ = false |- _ => apply eqb_false in H
    end.

Lemma min2_le_l (a b : Q) : Py.min2 a b <= a.
Proof.
  unfold Py.min2. destruct (Py.ltb b a) eqn:E; reflect_cmp; lra.
Qed.

Lemma min2_le_r (a b : Q) : Py.min2 a b <= b.
Proof.
  unfold Py.min2. destruct (Py.ltb b a) eqn:E; reflect_cmp; lra.
Qed.

Lemma min2_Qmin (a b : Q) : Py.min2 a b == Qmin a b.
Proof.
  unfold Py.min2. destruct (Py.ltb b a) eqn:E; reflect_cmp.
  - rewrite Q.min_r; lra.
  - rewrite Q.min_l; lra.
Qed.

Lemma max2_Qmax (a b : Q) : Py.max2 a b == Qmax a b.
Proof.
  unfold Py.max2. destruct (Py.ltb a b) eqn:E; reflect_cmp.
  - rewrite Q.max_r; lra.
  - rewrite Q.max_l; lra.
Qed.

Lemma min3_le_limit (a b c : Q) : Py.min3 a b c <= c.
Proof. apply min2_le_r. Qed.

End PyFacts.

(** ** The signal gate *)

Module GateSpec.

Import DeepSeekTrader PyFacts.
Local Open Scope string_scope.

Lemma orders_app (l1 l2 : list Event) :
  orders (l1 ++ l2) = (orders l1 ++ orders l2)%list.
Proof.
  induction l1 as [| [o | n] l1 IH]; simpl; [reflexivity | | exact IH].
  now rewrite IH.
Qed.

Lemma confidence_filter_blocks (t : Trader) (s : Signal) :
  current_conf_val s < min_conf_val t ->
  confidence_filter t s
  = set_signal s "HOLD" (reason s ++ confidence_suffix t s).
Proof.
  intro H. unfold confidence_filter.
  now rewrite (proj2 (ltb_true _ _) H).
Qed.

Lemma confidence_filter_passes (t : Trader) (s : Signal) :
  ~ current_conf_val s < min_conf_val t -> confidence_filter t s = s.
Proof.
  intro H. unfold confidence_filter.
  destruct (Py.ltb _ _) eqn:E; [| reflexivity].
  reflect_cmp. contradiction.
Qed.

(** The events of the sizer are notifications only. *)
Lemma sizing_places_nothing (t : Trader) (ex : Exchange) (s : Signal) :
  orders (fst (sizing t ex s)) = [].
Proof.
  unfold sizing.
  destruct (ohlcv_price_sizing ex) as [price |]; [| reflexivity].
  destruct (max_trade_limit t ex s price) as [[closing limit] |];
    [| reflexivity].
  unfold venue_rules.
  destruct (market ex) as [m |].
  - destruct (match min_amount m with Some _ => _ | None => _ end)
      as [a1 |]; [| reflexivity].
    destruct (amount_to_precision ex a1) as [a2 |]; [| reflexivity].
    destruct (below_min (min_amount m) a2); [reflexivity |].
    destruct (min_cost_step ex m s price limit a2) as [e | a];
      [reflexivity |].
    now destruct (Py.leb a 0).
  - now destruct (Py.leb _ 0).
Qed.

(** A signal that is neither BUY nor SELL reaches no order. *)
Lemma undirected_places_nothing (t : Trader) (ex : Exchange) (s : Signal)
      (pos : option Position) (a : Q) :
  (signal s =? "BUY") = false -> (signal s =? "SELL") = false ->
  place_orders t ex s pos a = ([], Completed).
Proof.
  intros Hb Hs. unfold place_orders. rewrite Hb, Hs.
  now destruct (is_cash (trade_mode t)).
Qed.

Lemma hold_routes_nothing (t : Trader) (ex : Exchange) (s : Signal)
      (pos : option Position) :
  signal s = "HOLD" -> orders (fst (sizing_and_routing t ex s pos)) = [].
Proof.
  intro H. unfold sizing_and_routing.
  pose proof (sizing_places_nothing t ex s) as Hs.
  destruct (sizing t ex s) as [evs [e | [limit a]]]; simpl in *;
    [exact Hs |].
  rewrite undirected_places_nothing by (rewrite H; reflexivity).
  simpl. now rewrite app_nil_r.
Qed.

(** Past the confidence filter, the signal that [execute_trade]
    leaves behind is the one the profit filter returns. *)
Lemma final_signal_past_confidence (t : Trader) (ex : Exchange) (s : Signal)
      (price : Q) :
  ohlcv_price_entry ex = Some price ->
  (signal (confidence_filter t s) =? "HOLD") = false ->
  final_signal (execute_trade t ex s)
  = profit_filter t (get_current_position t ex) price (confidence_filter t s).
Proof.
  intros Hp Hc. unfold execute_trade. rewrite Hp, Hc.
  destruct (test_mode t); [reflexivity |].
  destruct (slippage_exceeded t ex); [reflexivity |].
  now destruct (sizing_and_routing _ _ _ _).
Qed.

Lemma events_past_confidence (t : Trader) (ex : Exchange) (s : Signal)
      (price : Q) :
  ohlcv_price_entry ex = Some price ->
  (signal (confidence_filter t s) =? "HOLD") = false ->
  let s2 := profit_filter t (get_current_position t ex) price
                          (confidence_filter t s) in
  orders (events (execute_trade t ex s)) = []
  \/ orders (events (execute_trade t ex s))
     = orders (fst (sizing_and_routing t ex s2 (get_current_position t ex))).
Proof.
  intros Hp Hc. unfold execute_trade. rewrite Hp, Hc. cbv zeta.
  destruct (test_mode t); [now left |].
  destruct (slippage_exceeded t ex); [now left |].
  right. now destruct (sizing_and_routing _ _ _ _).
Qed.

(** C3. Whatever the other fields of the signal, a confidence whose
    rank under LOW=1, MEDIUM=2, HIGH=3 is below the rank of the
    configured [min_confidence] makes the confidence filter set the
    action to HOLD, and [execute_trade] places no order: it returns at
    the HOLD test with the filtered signal as soon as the price read
    on entry has answered. *)
Theorem confidence_floor_forces_hold (t : Trader) (ex : Exchange)
        (s : Signal) :
  current_conf_val s < min_conf_val t ->
  signal (confidence_filter t s) = "HOLD"
  /\ orders (events (execute_trade t ex s)) = []
  /\ (forall price, ohlcv_price_entry ex = Some price ->
        execute_trade t ex s = mkOutcome (confidence_filter t s) [] Hold).
Proof.
  intro H. rewrite (confidence_filter_blocks t s H).
  split; [reflexivity |].
  unfold execute_trade. rewrite (confidence_filter_blocks t s H).
  destruct (ohlcv_price_entry ex) as [p |]; simpl.
  - split; [reflexivity | intros ? _; reflexivity].
  - split; [reflexivity | intros ? Hn; discriminate Hn].
Qed.

Lemma confidence_floor_forces_hold_witness :
  orders (events (execute_trade Scenario.swap_trader
                                (Scenario.quiet [] 100)
                                Scenario.weak_sell_signal)) = [].
Proof.
  apply (confidence_floor_forces_hold Scenario.swap_trader
           (Scenario.quiet [] 100) Scenario.weak_sell_signal).
  reflexivity.
Defined.

Lemma sell_is_not_hold (s : Signal) :
  signal s = "SELL" -> (signal s =? "HOLD") = false.
Proof. intro H. now rewrite H. Qed.

(** C4. With a taker fee of 0.001 and an open position, the bar of the
    profit filter is 2*0.001 + 0.0005 = 0.0025.  A SELL that passed
    the confidence filter with an unrealised profit of 0.0015 is
    turned into HOLD, and no order follows; with a profit of 0.003 the
    signal leaves [execute_trade] exactly as it came in, the
    low-margin band having only logged a warning. *)
Theorem fee_filter_at_default_rate (t : Trader) (ex : Exchange) (s : Signal)
        (p : Position) (price : Q) :
  taker_fee_rate t == 0.001 ->
  get_current_position t ex = Some p ->
  ohlcv_price_entry ex = Some price ->
  signal s = "SELL" ->
  ~ current_conf_val s < min_conf_val t ->
  min_profit_threshold t == 0.0025
  /\ (position_pnl_pct p price == 0.0015 ->
      signal (final_signal (execute_trade t ex s)) = "HOLD"
      /\ orders (events (execute_trade t ex s)) = [])
  /\ (position_pnl_pct p price == 0.003 ->
      final_signal (execute_trade t ex s) = s
      /\ low_margin_warning t (position_pnl_pct p price) = true).
Proof.
  intros Hfee Hpos Hprice Hsell Hconf.
  assert (Hthr : min_profit_threshold t == 0.0025).
  { unfold min_profit_threshold, round_trip_fee. rewrite Hfee. reflexivity. }
  pose proof (confidence_filter_passes t s Hconf) as Hcf.
  assert (Hnh : (signal (confidence_filter t s) =? "HOLD") = false)
    by (rewrite Hcf; now apply sell_is_not_hold).
  pose proof (final_signal_past_confidence t ex s price Hprice Hnh) as Hfin.
  pose proof (events_past_confidence t ex s price Hprice Hnh) as Hev.
  cbv zeta in Hev. rewrite Hcf, Hpos in Hfin, Hev.
  unfold profit_filter in Hfin, Hev. rewrite Hsell in Hfin, Hev.
  simpl in Hfin, Hev.
  split; [exact Hthr |]. split; intro Hpnl.
  - assert (Hin : Py.leb 0 (position_pnl_pct p price)
                  && Py.ltb (position_pnl_pct p price)
                            (min_profit_threshold t) = true).
    { apply andb_true_iff. split; [apply leb_true | apply ltb_true]; lra. }
    rewrite Hin in Hfin, Hev. split; [now rewrite Hfin |].
    destruct Hev as [Hev | Hev]; [exact Hev |].
    rewrite Hev. now apply hold_routes_nothing.
  - assert (Hout : Py.leb 0 (position_pnl_pct p price)
                   && Py.ltb (position_pnl_pct p price)
                             (min_profit_threshold t) = false).
    { apply andb_false_iff. right. apply ltb_false. lra. }
    rewrite Hout in Hfin. split; [exact Hfin |].
    unfold low_margin_warning. apply andb_true_iff.
    split; [apply leb_true | apply ltb_true]; lra.
Qed.

Lemma fee_filter_at_default_rate_witness :
  signal (final_signal
            (execute_trade Scenario.swap_trader
                           (Scenario.quiet [Scenario.long_at_100] 100.15)
                           Scenario.sell_signal)) = "HOLD".
Proof.
  refine (proj1 (proj1 (proj2
    (fee_filter_at_default_rate Scenario.swap_trader
       (Scenario.quiet [Scenario.long_at_100] 100.15) Scenario.sell_signal
       (mkPosition "long" 2 100 0 10 "ETH/USDT:USDT") 100.15
       _ _ _ _ _)) _)).
  - reflexivity.
  - reflexivity.
  - reflexivity.
  - reflexivity.
  - intro H. discriminate H.
  - reflexivity.
Defined.


(** C9, as stated, fails on the profit filter: a SELL of a long opened
    at 100 and quoted at 100.15 is turned into HOLD, and the reason
    left behind does not start with the reason that came in. *)
Lemma fee_filter_discards_reason :
  let out := execute_trade Scenario.swap_trader
               (Scenario.quiet [Scenario.long_at_100] 100.15)
               Scenario.sell_signal in
  signal (final_signal out) = "HOLD"
  /\ ~ (exists suffix,
          reason (final_signal out) = reason Scenario.sell_signal ++ suffix).
Proof.
  split; [reflexivity |].
  intros [suffix H]. vm_compute in H. discriminate H.
Qed.

(** C9, amended. When [execute_trade] turns a signal that was not
    HOLD into HOLD, either the confidence filter did it, and the
    reason is the original one followed by the suffix naming the two
    confidence levels, or the profit filter did it on a SELL with an
    open position, and the reason is the risk-control message built
    from the profit and the round-trip fee alone. *)
Theorem gate_hold_reason (t : Trader) (ex : Exchange) (s : Signal)
        (price : Q) :
  ohlcv_price_entry ex = Some price ->
  signal s <> "HOLD" ->
  signal (final_signal (execute_trade t ex s)) = "HOLD" ->
  (current_conf_val s < min_conf_val t
   /\ reason (final_signal (execute_trade t ex s))
      = reason s ++ confidence_suffix t s)
  \/ (~ current_conf_val s < min_conf_val t
      /\ signal s = "SELL"
      /\ exists p, get_current_position t ex = Some p
           /\ reason (final_signal (execute_trade t ex s))
              = block_reason t (position_pnl_pct p price)).
Proof.
  intros Hprice Hnot Hhold.
  destruct (Qlt_le_dec (current_conf_val s) (min_conf_val t)) as [Hlt | Hge].
  - left. split; [exact Hlt |].
    unfold execute_trade. rewrite Hprice.
    now rewrite (confidence_filter_blocks t s Hlt).
  - right. assert (Hconf : ~ current_conf_val s < min_conf_val t) by lra.
    split; [exact Hconf |].
    pose proof (confidence_filter_passes t s Hconf) as Hcf.
    assert (Hnh : (signal (confidence_filter t s) =? "HOLD") = false)
      by (rewrite Hcf; now apply String.eqb_neq).
    rewrite (final_signal_past_confidence t ex s price Hprice Hnh), Hcf
      in Hhold |- *.
    unfold profit_filter in Hhold |- *.
    destruct (signal s =? "SELL") eqn:Hsell; [| contradiction].
    apply String.eqb_eq in Hsell. split; [exact Hsell |].
    destruct (get_current_position t ex) as [p |]; [| contradiction].
    exists p. split; [reflexivity |].
    destruct (Py.leb 0 _ && Py.ltb _ _); [reflexivity | contradiction].
Qed.

Lemma gate_hold_reason_witness :
  (current_conf_val Scenario.weak_sell_signal
   < min_conf_val Scenario.swap_trader
   /\ reason (final_signal
                (execute_trade Scenario.swap_trader (Scenario.quiet [] 100)
                               Scenario.weak_sell_signal))
      = reason Scenario.weak_sell_signal
        ++ confidence_suffix Scenario.swap_trader Scenario.weak_sell_signal)
  \/ (~ current_conf_val Scenario.weak_sell_signal
        < min_conf_val Scenario.swap_trader
      /\ signal Scenario.weak_sell_signal = "SELL"
      /\ exists p,
           get_current_position Scenario.swap_trader (Scenario.quiet [] 100)
           = Some p
           /\ reason (final_signal
                        (execute_trade Scenario.swap_trader
                                       (Scenario.quiet [] 100)
                                       Scenario.weak_sell_signal))
              = block_reason Scenario.swap_trader (position_pnl_pct p 100)).
Proof.
  apply (gate_hold_reason Scenario.swap_trader (Scenario.quiet [] 100)
           Scenario.weak_sell_signal 100).
  - reflexivity.
  - intro H. discriminate H.
  - reflexivity.
Defined.

Lemma first_open_none (sym : string) (lev : Q) (ps : list RawPosition) :
  Forall (fun r => raw_symbol r = sym -> Py.or_zero (contracts r) <= 0) ps ->
  first_open sym lev ps = None.
Proof.
  induction 1 as [| r ps Hr _ IH]; simpl; [reflexivity |].
  destruct (raw_symbol r =? sym) eqn:Es; simpl; [| exact IH].
  apply String.eqb_eq in Es. specialize (Hr Es).
  now rewrite (proj2 (ltb_false _ _) Hr).
Qed.

(** C10. While [get_current_position] returns [None] the profit filter
    leaves a SELL alone at every price, so a SELL that passed the
    confidence filter leaves [execute_trade] unchanged, whatever the
    spot balances say.  That is the case whenever the position list
    cannot be fetched or holds no entry of the symbol with a positive
    number of contracts. *)
Theorem sell_without_position_skips_fee_filter (t : Trader) (ex : Exchange)
        (s : Signal) :
  get_current_position t ex = None ->
  signal s = "SELL" ->
  (forall price, profit_filter t (get_current_position t ex) price s = s)
  /\ (~ current_conf_val s < min_conf_val t ->
      final_signal (execute_trade t ex s) = s)
  /\ (forall ex',
        match fetch_positions ex' with
        | None => True
        | Some ps =>
            Forall (fun r => raw_symbol r = symbol t ->
                             Py.or_zero (contracts r) <= 0) ps
        end ->
        get_current_position t ex' = None).
Proof.
  intros Hpos Hsell. split; [| split].
  - intro price. rewrite Hpos. unfold profit_filter.
    now destruct (signal s =? "SELL").
  - intro Hconf.
    pose proof (confidence_filter_passes t s Hconf) as Hcf.
    destruct (ohlcv_price_entry ex) as [price |] eqn:Hprice.
    + rewrite (final_signal_past_confidence t ex s price Hprice), Hcf, Hpos.
      * unfold profit_filter. now destruct (signal s =? "SELL").
      * rewrite Hcf. now apply sell_is_not_hold.
    + unfold execute_trade. now rewrite Hprice.
  - intros ex' H. unfold get_current_position.
    destruct (fetch_positions ex') as [ps |]; [| reflexivity].
    now apply first_open_none.
Qed.

Lemma sell_without_position_skips_fee_filter_witness :
  final_signal (execute_trade Scenario.spot_trader
                              (Scenario.quiet [Scenario.long_at_100] 100.15)
                              Scenario.sell_signal)
  = Scenario.sell_signal.
Proof.
  refine (proj1 (proj2
    (sell_without_position_skips_fee_filter Scenario.spot_trader
       (Scenario.quiet [Scenario.long_at_100] 100.15) Scenario.sell_signal
       _ _)) _).
  - reflexivity.
  - reflexivity.
  - intro H. discriminate H.
Defined.


End GateSpec.

(** ** The position sizer and the router *)

Module SizerSpec.

Import DeepSeekTrader PyFacts.
Local Open Scope string_scope.

(** C5. With an initial balance configured, the balance the sizer
    works from is [min(free, max(0, quota - used))], the quota being
    [initial_balance * allocation] for an allocation of at most 1 and
    the allocation itself above, and the capital in use being the
    value of the spot holding.  With a quota of 100, 40 in use, 200
    free and a price of 2 it is 60, and a spot BUY is limited to
    60*0.99/2 = 29.7. *)
Theorem fund_isolation (t : Trader) (ex : Exchange) (s : Signal)
        (price : Q) :
  0 < initial_balance t ->
  effective_balance t ex price
  == Qmin (account_balance ex)
          (Qmax 0 (allocated_quota t - used_capital t ex price))
  /\ (allocation t <= 1 ->
      allocated_quota t = initial_balance t * allocation t)
  /\ (1 < allocation t -> allocated_quota t = allocation t)
  /\ (trade_mode t = cash ->
      used_capital t ex price = spot_balance_used ex * price)
  /\ (trade_mode t = cash -> signal s = "BUY" ->
      allocated_quota t == 100 -> used_capital t ex price == 40 ->
      account_balance ex == 200 -> price == 2 ->
      effective_balance t ex price == 60
      /\ exists limit,
           max_trade_limit t ex s price = Some (false, limit)
           /\ limit == 29.7).
Proof.
  intro Hinit.
  assert (Heff : effective_balance t ex price
                 == Qmin (account_balance ex)
                      (Qmax 0 (allocated_quota t - used_capital t ex price))).
  { unfold effective_balance, remaining_quota.
    rewrite (proj2 (ltb_true _ _) Hinit).
    set (q := allocated_quota t - used_capital t ex price).
    pose proof (max2_Qmax 0 q) as Hmax.
    destruct (Py.ltb (Py.max2 0 q) (account_balance ex)) eqn:E; reflect_cmp.
    - rewrite Q.min_r; lra.
    - rewrite Q.min_l; lra. }
  split; [exact Heff |].
  split; [| split; [| split; [| ]]].
  - intro H. unfold allocated_quota. now rewrite (proj2 (leb_true _ _) H).
  - intro H. unfold allocated_quota. now rewrite (proj2 (leb_false _ _) H).
  - intro H. unfold used_capital. now rewrite H.
  - intros Hcash Hbuy Hq Hu Hb Hp.
    assert (H60 : effective_balance t ex price == 60).
    { rewrite Heff, Hq, Hu, Hb. reflexivity. }
    split; [exact H60 |].
    unfold max_trade_limit. rewrite Hbuy, Hcash. simpl.
    unfold Py.div.
    assert (Hnz : Py.eqb price 0 = false) by (apply eqb_false; lra).
    rewrite Hnz. simpl. eexists. split; [reflexivity |].
    rewrite H60, Hp. reflexivity.
Qed.

Lemma fund_isolation_witness :
  effective_balance Scenario.quota_trader Scenario.holding_forty 2 == 60.
Proof.
  refine (proj1 (proj2 (proj2 (proj2 (proj2
    (fund_isolation Scenario.quota_trader Scenario.holding_forty
                    Scenario.buy_signal 2 _))))
    _ _ _ _ _ _)); reflexivity.
Defined.

(** *** Within the limit, short of the notional raise *)

Lemma select_amount_le_limit (t : Trader) (s : Signal) (closing : bool)
      (limit : Q) :
  select_amount t s closing limit <= limit.
Proof.
  unfold select_amount.
  destruct closing; [apply min2_le_r |].
  destruct (Py.upper (confidence s) =? "HIGH");
    [apply min2_le_r | apply min3_le_limit].
Qed.

(** On a market without a minimum order value, and with a precision
    step that never increases an amount, what the sizer hands to order
    placement is within [max_trade_limit]: the minimum-quantity raise
    is guarded by the amount it raises to. *)
Lemma sized_amount_within_limit (t : Trader) (ex : Exchange) (s : Signal)
      (m : Market) (evs : list Event) (limit a : Q) :
  market ex = Some m -> min_cost m = None ->
  (forall q r, amount_to_precision ex q = Some r -> r <= q) ->
  sizing t ex s = (evs, inr (limit, a)) ->
  a <= limit.
Proof.
  intros Hm Hmc Hprec. unfold sizing.
  destruct (ohlcv_price_sizing ex) as [price |]; [| discriminate].
  destruct (max_trade_limit t ex s price) as [[closing lim] |];
    [| discriminate].
  pose proof (select_amount_le_limit t s closing lim) as Hsel.
  set (a0 := select_amount t s closing lim) in *.
  unfold venue_rules. rewrite Hm.
  assert (Hraise :
            forall a1,
              match min_amount m with
              | Some mn =>
                  if Py.ltb a0 mn
                  then if Py.leb mn lim && is_buy s then Some mn else None
                  else Some a0
              | None => Some a0
              end = Some a1 -> a1 <= lim).
  { intro a1. destruct (min_amount m) as [mn |].
    - destruct (Py.ltb a0 mn).
      + destruct (Py.leb mn lim) eqn:E; simpl; [| discriminate].
        destruct (is_buy s); [| discriminate].
        intro H. inversion H; subst. now reflect_cmp.
      + intro H. inversion H; subst. exact Hsel.
    - intro H. inversion H; subst. exact Hsel. }
  destruct (match min_amount m with Some _ => _ | None => _ end) as [a1 |];
    [| discriminate].
  specialize (Hraise a1 eq_refl).
  destruct (amount_to_precision ex a1) as [a2 |] eqn:Ha2; [| discriminate].
  apply Hprec in Ha2.
  destruct (below_min (min_amount m) a2); [discriminate |].
  unfold min_cost_step. rewrite Hmc.
  destruct (Py.leb a2 0); [discriminate |].
  intro H. inversion H; subst. lra.
Qed.


(** C1 fails on the minimum-notional raise. With 10.2 USDT free at a
    price of 2 the spot BUY limit is 10.2*0.99/2 = 5.049; it covers the
    10 USDT minimum, so the sizer raises the one coin asked for to
    10/2*1.05 = 5.25 coins, above the limit and worth more than the
    free balance, and that is the amount of the order placed. *)
Theorem notional_raise_exceeds_limit :
  exists limit trade_amount,
    sizing Scenario.spot_trader Scenario.thin_account Scenario.buy_signal
    = ([], inr (limit, trade_amount))
    /\ limit == 5.049
    /\ trade_amount == 5.25
    /\ limit < trade_amount
    /\ account_balance Scenario.thin_account < trade_amount * 2
    /\ orders (events (execute_trade Scenario.spot_trader
                                     Scenario.thin_account
                                     Scenario.buy_signal))
       = [mkOrder buy trade_amount false None].
Proof.
  eexists. eexists. split; [vm_compute; reflexivity |].
  repeat split; reflexivity.
Qed.

(** *** Where the orders of [execute_trade] come from *)

Lemma execute_trade_orders (t : Trader) (ex : Exchange) (s : Signal)
      (o : Order) :
  In o (orders (events (execute_trade t ex s))) ->
  exists price evs limit a,
    ohlcv_price_entry ex = Some price
    /\ (signal (confidence_filter t s) =? "HOLD") = false
    /\ sizing t ex (profit_filter t (get_current_position t ex) price
                                  (confidence_filter t s))
       = (evs, inr (limit, a))
    /\ In o (orders (fst (place_orders t ex
                            (profit_filter t (get_current_position t ex)
                                           price (confidence_filter t s))
                            (get_current_position t ex) a))).
Proof.
  unfold execute_trade.
  destruct (ohlcv_price_entry ex) as [price |]; [| intros []].
  destruct (signal (confidence_filter t s) =? "HOLD") eqn:Hc; [intros [] |].
  destruct (test_mode t); [intros [] |].
  destruct (slippage_exceeded t ex); [intros [] |].
  set (s2 := profit_filter _ _ _ _).
  unfold sizing_and_routing.
  pose proof (GateSpec.sizing_places_nothing t ex s2) as Hs.
  destruct (sizing t ex s2) as [evs [e | [limit a]]] eqn:Hsz;
    simpl in Hs |- *.
  - rewrite Hs. intros [].
  - destruct (place_orders t ex s2 (get_current_position t ex) a)
      as [evs' e] eqn:Hp.
    simpl. rewrite GateSpec.orders_app, Hs. simpl. intro Hin.
    subst s2. exists price, evs, limit, a. rewrite Hp.
    repeat split; try reflexivity; assumption.
Qed.

(** The gate hands a SELL on unchanged or turns it into HOLD. *)
Lemma gate_of_sell (t : Trader) (s : Signal) (pos : option Position)
      (price : Q) :
  signal s = "SELL" ->
  (signal (confidence_filter t s) =? "HOLD") = false ->
  profit_filter t pos price (confidence_filter t s) = s
  \/ signal (profit_filter t pos price (confidence_filter t s)) = "HOLD".
Proof.
  intros Hsell Hc.
  assert (Hcf : confidence_filter t s = s).
  { unfold confidence_filter in *.
    destruct (Py.ltb _ _); [discriminate Hc | reflexivity]. }
  rewrite Hcf. unfold profit_filter.
  destruct (signal s =? "SELL"); [| now left].
  destruct pos as [p |]; [| now left].
  destruct (Py.leb 0 _ && Py.ltb _ _); [now right | now left].
Qed.

Lemma hold_places_nothing (t : Trader) (ex : Exchange) (s : Signal)
      (pos : option Position) (a : Q) :
  signal s = "HOLD" -> place_orders t ex s pos a = ([], Completed).
Proof.
  intro H. apply GateSpec.undirected_places_nothing; now rewrite H.
Qed.

(** *** Spot SELL *)

Lemma spot_sell_limit (t : Trader) (ex : Exchange) (s : Signal) (price : Q) :
  trade_mode t = cash -> signal s = "SELL" ->
  max_trade_limit t ex s price = Some (true, spot_balance_sell ex).
Proof.
  intros Hc Hs. unfold max_trade_limit. now rewrite Hs, Hc.
Qed.

(** For a signal that is not BUY the exchange rules never raise the
    amount: it is truncated, or rounded by the exception handler. *)
Lemma venue_rules_not_buy (ex : Exchange) (s : Signal)
      (price limit a q : Q) (evs : list Event) :
  is_buy s = false ->
  venue_rules ex s price limit a = (evs, inr q) ->
  match market ex with
  | Some _ => amount_to_precision ex a = Some q
  | None => q = Py.round4 a
  end.
Proof.
  intros Hb. unfold venue_rules.
  destruct (market ex) as [m |]; [| intro H; now inversion H].
  rewrite Hb.
  assert (Hstep : forall a2,
             min_cost_step ex m s price limit a2 = inr q -> a2 = q).
  { intro a2. unfold min_cost_step. rewrite Hb.
    destruct (min_cost m) as [mc |]; [| congruence].
    rewrite andb_false_r.
    destruct (Py.ltb (a2 * price) mc); congruence. }
  destruct (min_amount m) as [mn |].
  - rewrite andb_false_r.
    destruct (Py.ltb a mn); [discriminate |].
    destruct (amount_to_precision ex a) as [a2 |]; [| discriminate].
    destruct (below_min (Some mn) a2); [discriminate |].
    intro H. inversion H as [[He Hq]]. now rewrite (Hstep a2 Hq).
  - destruct (amount_to_precision ex a) as [a2 |]; [| discriminate].
    destruct (below_min None a2); [discriminate |].
    intro H. inversion H as [[He Hq]]. now rewrite (Hstep a2 Hq).
Qed.

Lemma spot_sell_sizing (t : Trader) (ex : Exchange) (s : Signal)
      (evs : list Event) (limit a : Q) :
  trade_mode t = cash -> signal s = "SELL" ->
  sizing t ex s = (evs, inr (limit, a)) ->
  match market ex with
  | Some _ =>
      amount_to_precision ex (Py.min2 (amount s) (spot_balance_sell ex))
      = Some a
  | None => a = Py.round4 (Py.min2 (amount s) (spot_balance_sell ex))
  end.
Proof.
  intros Hc Hs. unfold sizing.
  destruct (ohlcv_price_sizing ex) as [price |]; [| discriminate].
  rewrite (spot_sell_limit t ex s price Hc Hs).
  unfold select_amount.
  destruct (venue_rules _ _ _ _ _) as [evs' [e | q]] eqn:Hv; [discriminate |].
  destruct (Py.leb q 0); [discriminate |].
  intro H. inversion H; subst.
  apply (venue_rules_not_buy ex s price _ _ _ _) in Hv; [exact Hv |].
  unfold is_buy. now rewrite Hs.
Qed.

Lemma spot_sell_orders (t : Trader) (ex : Exchange) (s : Signal)
      (pos : option Position) (a : Q) (o : Order) :
  trade_mode t = cash -> signal s = "SELL" ->
  In o (orders (fst (place_orders t ex s pos a))) ->
  o = mkOrder sell a false None.
Proof.
  intros Hc Hs. unfold place_orders. rewrite Hc, Hs. simpl.
  destruct (coin_balance ex) as [held |]; [| intros []].
  destruct (Py.leb a held); [| intros []].
  unfold submit.
  destruct (create_market_order ex _); simpl; intros [H | []]; now subst.
Qed.

(** The quota, the configured amount and the free funds play no part
    in the sizing of a spot SELL. *)
Lemma spot_sell_sizing_indifferent (t : Trader) (ex : Exchange) (s : Signal)
      (amount' allocation' initial' balance' used' : Q) :
  trade_mode t = cash -> signal s = "SELL" ->
  sizing (Scenario.requota t amount' allocation' initial')
         (Scenario.refund ex balance' used') s
  = sizing t ex s.
Proof.
  intros Hc Hs. unfold sizing. simpl.
  destruct (ohlcv_price_sizing ex) as [price |]; [| reflexivity].
  rewrite (spot_sell_limit t ex s price Hc Hs).
  rewrite (spot_sell_limit (Scenario.requota t amount' allocation' initial')
             (Scenario.refund ex balance' used') s price Hc Hs).
  reflexivity.
Qed.

(** *** Reduce-only orders *)

Lemma submit_not_reduce_only (ex : Exchange) (o o' : Order) :
  reduceOnly o = false ->
  In o' (orders (fst (submit ex o))) -> reduceOnly o' = false.
Proof.
  intros Ho. unfold submit.
  destruct (create_market_order ex o); simpl; intros [H | []]; now subst.
Qed.

Lemma margin_orders_reduce_only (t : Trader) (ex : Exchange)
      (pos : option Position) (direction : OrderSide) (opposite : string)
      (closed : Q -> Notice) (a : Q) (o : Order) :
  In o (orders (fst (margin_orders t ex pos direction opposite closed a))) ->
  reduceOnly o = true ->
  exists p, pos = Some p /\ quantity o = size p.
Proof.
  unfold margin_orders.
  destruct pos as [p |].
  - destruct (side p =? opposite).
    + destruct (create_market_order ex (mkOrder direction (size p) true None)).
      * destruct (submit ex _) as [evs e] eqn:Hsub. simpl.
        intros [H | H] Hr.
        -- exists p. now subst.
        -- apply (f_equal fst) in Hsub. simpl in Hsub. subst evs.
           apply submit_not_reduce_only in H; [congruence | reflexivity].
      * simpl. intros [H | []] _. exists p. now subst.
    + destruct (known_side p); [| intros []].
      intros H Hr.
      apply submit_not_reduce_only in H; [congruence | reflexivity].
  - intros H Hr.
    apply submit_not_reduce_only in H; [congruence | reflexivity].
Qed.

Lemma place_orders_reduce_only (t : Trader) (ex : Exchange) (s : Signal)
      (pos : option Position) (a : Q) (o : Order) :
  In o (orders (fst (place_orders t ex s pos a))) ->
  reduceOnly o = true ->
  exists p, pos = Some p /\ quantity o = size p.
Proof.
  unfold place_orders.
  destruct (is_cash (trade_mode t)).
  - destruct (signal s =? "BUY").
    + intros H Hr.
      apply submit_not_reduce_only in H; [congruence | reflexivity].
    + destruct (signal s =? "SELL"); [| intros []].
      destruct (coin_balance ex) as [held |]; [| intros []].
      destruct (Py.leb a held); [| intros []].
      intros H Hr.
      apply submit_not_reduce_only in H; [congruence | reflexivity].
  - destruct (signal s =? "BUY");
      [apply margin_orders_reduce_only |].
    destruct (signal s =? "SELL");
      [apply margin_orders_reduce_only | intros []].
Qed.


Lemma execute_trade_events (t : Trader) (ex : Exchange) (s : Signal) :
  orders (events (execute_trade t ex s))
  = match ohlcv_price_entry ex with
    | None => []
    | Some price =>
        if signal (confidence_filter t s) =? "HOLD" then []
        else if test_mode t then []
        else if slippage_exceeded t ex then []
        else orders (fst (sizing_and_routing t ex
                            (profit_filter t (get_current_position t ex)
                                           price (confidence_filter t s))
                            (get_current_position t ex)))
    end.
Proof.
  unfold execute_trade.
  destruct (ohlcv_price_entry ex) as [price |]; [| reflexivity].
  destruct (signal (confidence_filter t s) =? "HOLD"); [reflexivity |].
  destruct (test_mode t); [reflexivity |].
  destruct (slippage_exceeded t ex); [reflexivity |].
  now destruct (sizing_and_routing _ _ _ _).
Qed.

Lemma spot_sell_orders_indifferent (t : Trader) (ex : Exchange) (s : Signal)
      (amount' allocation' initial' balance' used' : Q) :
  trade_mode t = cash -> signal s = "SELL" ->
  orders (events (execute_trade
                    (Scenario.requota t amount' allocation' initial')
                    (Scenario.refund ex balance' used') s))
  = orders (events (execute_trade t ex s)).
Proof.
  intros Hc Hs. rewrite !execute_trade_events.
  change (ohlcv_price_entry (Scenario.refund ex balance' used'))
    with (ohlcv_price_entry ex).
  destruct (ohlcv_price_entry ex) as [price |]; [| reflexivity].
  change (confidence_filter (Scenario.requota t amount' allocation' initial'))
    with (confidence_filter t).
  destruct (signal (confidence_filter t s) =? "HOLD") eqn:Hh;
    [reflexivity |].
  change (test_mode (Scenario.requota t amount' allocation' initial'))
    with (test_mode t).
  destruct (test_mode t); [reflexivity |].
  change (slippage_exceeded (Scenario.requota t amount' allocation' initial')
            (Scenario.refund ex balance' used'))
    with (slippage_exceeded t ex).
  destruct (slippage_exceeded t ex); [reflexivity |].
  change (get_current_position
            (Scenario.requota t amount' allocation' initial')
            (Scenario.refund ex balance' used'))
    with (get_current_position t ex).
  change (profit_filter (Scenario.requota t amount' allocation' initial'))
    with (profit_filter t).
  destruct (gate_of_sell t s (get_current_position t ex) price Hs Hh)
    as [Heq | Hhold].
  - rewrite Heq. unfold sizing_and_routing.
    rewrite (spot_sell_sizing_indifferent t ex s _ _ _ _ _ Hc Hs).
    reflexivity.
  - now rewrite !GateSpec.hold_routes_nothing.
Qed.

(** The orders that closing trades send, when they send any: a spot
    SELL is sized as [min(ai_amount, spot balance)] whatever the
    configured amount, the quota and the free funds are, and its order
    carries that amount as the exchange truncates it (or as the
    exception handler rounds it); every reduce-only order carries the
    size of the position read on entry.  Whether the close of a
    reversal is sent at all is another matter, settled below. *)
Lemma closing_orders_when_sent (t : Trader) (ex : Exchange)
        (s : Signal) :
  (trade_mode t = cash -> signal s = "SELL" ->
   (forall price,
       max_trade_limit t ex s price = Some (true, spot_balance_sell ex))
   /\ (forall limit,
          select_amount t s true limit = Py.min2 (amount s) limit)
   /\ (forall o, In o (orders (events (execute_trade t ex s))) ->
          o = mkOrder sell (quantity o) false None
          /\ match market ex with
             | Some _ =>
                 amount_to_precision ex
                   (Py.min2 (amount s) (spot_balance_sell ex))
                 = Some (quantity o)
             | None =>
                 quantity o
                 = Py.round4 (Py.min2 (amount s) (spot_balance_sell ex))
             end)
   /\ (forall amount' allocation' initial' balance' used',
          orders (events (execute_trade
                            (Scenario.requota t amount' allocation' initial')
                            (Scenario.refund ex balance' used') s))
          = orders (events (execute_trade t ex s))))
  /\ (forall o, In o (orders (events (execute_trade t ex s))) ->
        reduceOnly o = true ->
        exists p, get_current_position t ex = Some p /\ quantity o = size p)
  /\ (forall p a, is_cash (trade_mode t) = false -> opposes s p = true ->
        exists o rest,
          fst (place_orders t ex s (Some p) a) = Placed o :: rest
          /\ reduceOnly o = true /\ quantity o = size p).
Proof.
  split; [| split].
  - intros Hc Hs. split; [| split; [| split]].
    + intro price. now apply spot_sell_limit.
    + reflexivity.
    + intros o Hin.
      destruct (execute_trade_orders t ex s o Hin)
        as (price & evs & limit & a & _ & Hh & Hsz & Hpl).
      destruct (gate_of_sell t s (get_current_position t ex) price Hs Hh)
        as [Heq | Hhold].
      * rewrite Heq in Hsz, Hpl.
        pose proof (spot_sell_orders t ex s _ a o Hc Hs Hpl) as Ho.
        pose proof (spot_sell_sizing t ex s evs limit a Hc Hs Hsz) as Ha.
        subst o. simpl. split; [reflexivity | exact Ha].
      * rewrite (hold_places_nothing t ex _ _ a Hhold) in Hpl.
        destruct Hpl.
    + intros. now apply spot_sell_orders_indifferent.
  - intros o Hin Hr.
    destruct (execute_trade_orders t ex s o Hin)
      as (price & evs & limit & a & _ & _ & _ & Hpl).
    exact (place_orders_reduce_only t ex _ _ a o Hpl Hr).
  - intros p a Hm Hopp. unfold place_orders, opposes in *. rewrite Hm.
    destruct (signal s =? "BUY").
    + unfold margin_orders. rewrite Hopp.
      destruct (create_market_order ex (mkOrder buy (size p) true None)).
      * destruct (submit ex _) as [evs e]. simpl. eauto.
      * simpl. eauto.
    + destruct (signal s =? "SELL"); [| discriminate Hopp].
      unfold margin_orders. rewrite Hopp.
      destruct (create_market_order ex (mkOrder sell (size p) true None)).
      * destruct (submit ex _) as [evs e]. simpl. eauto.
      * simpl. eauto.
Qed.


(** A spot SELL of 30 coins by a trader configured for 1 coin per
    order and holding 20 sells the 20 held. *)
Example spot_sell_runs_on_holdings :
  exists q,
    orders (events (execute_trade Scenario.quota_trader
                                  Scenario.holding_forty
                                  Scenario.big_sell_signal))
    = [mkOrder sell q false None]
    /\ q == 20.
Proof. eexists. split; [vm_compute; reflexivity | reflexivity]. Qed.

(** When the sizer leaves by one of its exits, nothing is sent: the
    order block, and with it the close of a reversal, is not
    reached. *)
Lemma aborted_sizing_sends_nothing (t : Trader) (ex : Exchange) (s : Signal)
      (pos : option Position) (evs : list Event) (e : Exit) :
  sizing t ex s = (evs, inl e) ->
  orders (fst (sizing_and_routing t ex s pos)) = [].
Proof.
  intro H. unfold sizing_and_routing.
  pose proof (GateSpec.sizing_places_nothing t ex s) as Hs.
  rewrite H in Hs |- *. exact Hs.
Qed.

(** C2 fails on the close of a reversal. A cross-margin trader holds a
    long of 2 contracts opened at 100 and receives a SELL at 101 that
    passes both filters.  With 1000 USDT free the reduce-only close of
    the 2 contracts goes out, followed by the new short of 1.  With the
    same position and signal but a configured amount of 0, or no free
    USDT, or an allocation of 0 of the configured capital, the new
    short is sized to 0, [execute_trade] returns at the test on a
    non-positive amount with the signal still SELL, and no order is
    sent: the position is not closed. *)
Theorem reversal_close_gated_by_entry_size :
  let t := Scenario.swap_trader in
  let ex := Scenario.quiet [Scenario.long_at_100] 101 in
  let s := Scenario.sell_signal in
  get_current_position t ex
  = Some (mkPosition "long" 2 100 0 10 "ETH/USDT:USDT")
  /\ (exists q,
        orders (events (execute_trade t ex s))
        = [mkOrder sell 2 true None; mkOrder sell q false (Some cross)]
        /\ q == 1)
  /\ execute_trade (Scenario.requota t 0 1 0) ex s
     = mkOutcome s [] NonPositiveAmount
  /\ execute_trade t (Scenario.refund ex 0 0) s
     = mkOutcome s [] NonPositiveAmount
  /\ execute_trade (Scenario.requota t 1 0 1000) ex s
     = mkOutcome s [] NonPositiveAmount.
Proof.
  cbv zeta. split; [reflexivity |]. split.
  - eexists. split; [vm_compute; reflexivity | reflexivity].
  - repeat split; vm_compute; reflexivity.
Qed.

End SizerSpec.

(** ** The risk manager *)

Module RiskSpec.

Import RiskManager RiskRules PyFacts.

Lemma gap_percent_eq (rm : State) (real init r : Q) :
  initial_balance rm == init -> real == r ->
  gap_percent rm real == Qabs (r - init) / init * 100.
Proof.
  intros Hi Hr. unfold gap_percent. now rewrite Hi, Hr.
Qed.

(** C6. With 1000 USDT configured, a real total equity of 1200 (20%
    away) becomes the baseline whether or not one had been restored;
    at 1050 (5% away) the baseline becomes the configured 1000 when
    none had been restored (no value, or the null value 0) and is left
    as restored otherwise.  In every case the state file holds the
    baseline afterwards. *)
Theorem baseline_calibration (rm : State) (w : Wire)
        (traders : list DeepSeekTrader.Trader) (usdt_eq : Q) :
  initial_balance rm == 1000 ->
  (real_total_equity w traders usdt_eq == 1200 ->
   smart_baseline (initialize_baseline rm w traders usdt_eq)
   = Some (real_total_equity w traders usdt_eq))
  /\ (real_total_equity w traders usdt_eq == 1050 ->
      (smart_baseline rm = None ->
       smart_baseline (initialize_baseline rm w traders usdt_eq)
       = Some (initial_balance rm))
      /\ (forall b, smart_baseline rm = Some b -> ~ b == 0 ->
            smart_baseline (initialize_baseline rm w traders usdt_eq)
            = Some b)
      /\ (forall b, smart_baseline rm = Some b -> b == 0 ->
            smart_baseline (initialize_baseline rm w traders usdt_eq)
            = Some (initial_balance rm)))
  /\ state_file (initialize_baseline rm w traders usdt_eq)
     = Some (smart_baseline (initialize_baseline rm w traders usdt_eq)).
Proof.
  intro Hinit.
  assert (Hpos : Py.ltb 0 (initial_balance rm) = true)
    by (apply ltb_true; lra).
  unfold initialize_baseline. simpl. unfold calibrate. rewrite Hpos.
  split; [| split; [| reflexivity]].
  - intro Hreal.
    pose proof (gap_percent_eq rm _ 1000 1200 Hinit Hreal) as Hgap.
    assert (Hfar : Py.ltb 10 (gap_percent rm
                                (real_total_equity w traders usdt_eq)) = true).
    { apply ltb_true. rewrite Hgap. reflexivity. }
    now rewrite Hfar.
  - intro Hreal.
    pose proof (gap_percent_eq rm _ 1000 1050 Hinit Hreal) as Hgap.
    assert (Hnear : Py.ltb 10 (gap_percent rm
                                 (real_total_equity w traders usdt_eq))
                    = false).
    { apply ltb_false. rewrite Hgap. unfold Qle. simpl. lia. }
    rewrite Hnear. split; [| split].
    + intro Hb. now rewrite Hb.
    + intros b Hb Hnz. rewrite Hb. simpl.
      now rewrite (proj2 (eqb_false _ _) Hnz).
    + intros b Hb Hz. rewrite Hb. simpl.
      now rewrite (proj2 (eqb_true _ _) Hz).
Qed.

Lemma baseline_calibration_witness :
  smart_baseline (initialize_baseline Scenario.fresh_manager
                                      Scenario.no_wire [] 1200)
  = Some (real_total_equity Scenario.no_wire [] 1200).
Proof.
  refine (proj1 (baseline_calibration Scenario.fresh_manager
                   Scenario.no_wire [] 1200 _) _); reflexivity.
Defined.

(** The two trigger blocks of [check] pick the first breach in the
    evaluation order. *)
Lemma first_breach_blocks (rm : State) (current_pnl pnl_pct : Q) :
  first_breach rm current_pnl pnl_pct
  = match take_profit_trigger rm current_pnl pnl_pct with
    | Some k => Some k
    | None => stop_loss_trigger rm current_pnl pnl_pct
    end.
Proof.
  unfold first_breach, evaluation_order, breached, threshold, reached,
    take_profit_trigger, stop_loss_trigger, Py.truthy, Py.or_zero.
  simpl.
  destruct (max_profit rm) as [v1 |], (max_profit_pct rm) as [v2 |],
    (max_loss rm) as [v3 |], (max_loss_pct rm) as [v4 |]; simpl;
    repeat match goal with
      | |- context [negb ?b && ?c] => destruct (negb b && c); simpl
      end; reflexivity.
Qed.

Lemma halt_events_first_breach (rm : State) (current_pnl pnl_pct : Q) :
  halt_events rm current_pnl pnl_pct
  = match first_breach rm current_pnl pnl_pct with
    | Some k => halt k
    | None => []
    end.
Proof.
  rewrite first_breach_blocks. unfold halt_events, halt.
  now destruct (take_profit_trigger rm current_pnl pnl_pct).
Qed.

Lemma first_breach_is_breached (rm : State) (current_pnl pnl_pct : Q)
      (k : Trigger) :
  first_breach rm current_pnl pnl_pct = Some k ->
  breached rm current_pnl pnl_pct k = true.
Proof.
  intro H. apply find_some in H. tauto.
Qed.

(** Initialising the baseline leaves the thresholds alone. *)
Lemma ensure_baseline_thresholds (rm : State) (w : World)
      (traders : list DeepSeekTrader.Trader) (usdt_eq : Q)
      (current_pnl pnl_pct : Q) :
  halt_events (ensure_baseline rm w traders usdt_eq) current_pnl pnl_pct
  = halt_events rm current_pnl pnl_pct.
Proof.
  unfold ensure_baseline. now destruct (smart_baseline rm).
Qed.

(** The events of one cycle, once the equity is usable and the
    baseline in force is positive. *)
Lemma check_events (rm : State) (w : World)
      (traders : list DeepSeekTrader.Trader) (usdt_eq b : Q) :
  read_equity w = Some usdt_eq -> 0 < usdt_eq ->
  smart_baseline (ensure_baseline rm w traders usdt_eq) = Some b -> 0 < b ->
  snd (check rm w traders)
  = halt_events rm
      (usdt_eq + spot_value (check_wire (wire_check w) traders) traders - b)
      ((usdt_eq + spot_value (check_wire (wire_check w) traders) traders - b)
       / b * 100).
Proof.
  intros He Hpos Hb Hbpos. unfold check. rewrite He.
  rewrite (proj2 (leb_false _ _) Hpos).
  unfold monitor. rewrite Hb.
  assert (Hz : Py.eqb b 0 = false) by (apply eqb_false; lra).
  rewrite Hz, (proj2 (leb_false _ _) Hbpos). simpl.
  apply ensure_baseline_thresholds.
Qed.

Lemma check_events_shape (rm : State) (w : World)
      (traders : list DeepSeekTrader.Trader) :
  snd (check rm w traders) = []
  \/ exists current_pnl pnl_pct,
       snd (check rm w traders) = halt_events rm current_pnl pnl_pct.
Proof.
  unfold check.
  destruct (read_equity w) as [usdt_eq |]; [| now left].
  destruct (Py.leb usdt_eq 0); [now left |].
  unfold monitor.
  destruct (smart_baseline (ensure_baseline rm w traders usdt_eq))
    as [b |]; [| now left].
  destruct (Py.eqb b 0 || Py.leb b 0); [now left |].
  right. simpl. rewrite ensure_baseline_thresholds. eauto.
Qed.

(** C7. In a cycle of [check] that reaches the thresholds, the events
    are those of the first breached threshold in the order take-profit
    by amount, take-profit by rate, stop-loss by amount, stop-loss by
    rate: one flattening of all traders, one notification naming that
    threshold, one exit; and none when no configured threshold is
    breached, so that any breach halts.  In every cycle the halt happens at most once, and a
    threshold that is not set (absent, or 0) is never the one
    notified. *)
Theorem halt_in_order_once (rm : State) (w : World)
        (traders : list DeepSeekTrader.Trader) :
  (forall usdt_eq b,
      read_equity w = Some usdt_eq -> 0 < usdt_eq ->
      smart_baseline (ensure_baseline rm w traders usdt_eq) = Some b ->
      0 < b ->
      let current_pnl :=
        usdt_eq + spot_value (check_wire (wire_check w) traders) traders - b in
      let pnl_pct := current_pnl / b * 100 in
      snd (check rm w traders)
      = match first_breach rm current_pnl pnl_pct with
        | Some k => [CloseAllTraders; Notified k; SysExit]
        | None => []
        end
      /\ (forall k, breached rm current_pnl pnl_pct k = true ->
            exists k', snd (check rm w traders)
                       = [CloseAllTraders; Notified k'; SysExit]))
  /\ (snd (check rm w traders) = []
      \/ exists k, snd (check rm w traders)
                   = [CloseAllTraders; Notified k; SysExit])
  /\ (forall k, Py.truthy (threshold rm k) = false ->
        ~ In (Notified k) (snd (check rm w traders))).
Proof.
  split; [| split].
  - intros usdt_eq b He Hpos Hb Hbpos. cbv zeta.
    rewrite (check_events rm w traders usdt_eq b He Hpos Hb Hbpos).
    rewrite halt_events_first_breach. split; [reflexivity |].
    intros k Hk.
    destruct (first_breach rm _ _) as [k' |] eqn:Hf; [now exists k' |].
    unfold first_breach in Hf.
    assert (Hin : In k evaluation_order)
      by (unfold evaluation_order; destruct k; simpl; tauto).
    rewrite (find_none _ _ Hf k Hin) in Hk. discriminate Hk.
  - destruct (check_events_shape rm w traders) as [H | (pnl & pct & H)];
      [now left |].
    rewrite H, halt_events_first_breach.
    destruct (first_breach rm pnl pct) as [k |]; [right | now left].
    now exists k.
  - intros k Hk Hin.
    destruct (check_events_shape rm w traders) as [H | (pnl & pct & H)];
      rewrite H in Hin; [destruct Hin |].
    rewrite halt_events_first_breach in Hin.
    destruct (first_breach rm pnl pct) as [k' |] eqn:Hf; [| destruct Hin].
    destruct Hin as [Hin | [Hin | [Hin | []]]]; try discriminate Hin.
    inversion Hin; subst k'.
    apply first_breach_is_breached in Hf. unfold breached in Hf.
    unfold Py.truthy in Hk.
    destruct (threshold rm k) as [v |]; [| discriminate Hf].
    rewrite Hk in Hf. discriminate Hf.
Qed.

Lemma halt_in_order_once_witness :
  snd (check Scenario.fresh_manager (Scenario.world_with_equity 1100) [])
  = [CloseAllTraders; Notified ProfitAmount; SysExit].
Proof.
  refine (proj1 (proj1 (halt_in_order_once Scenario.fresh_manager
                          (Scenario.world_with_equity 1100) [])
                       1100 1000 _ _ _ _)); reflexivity.
Defined.

(** C8. When the balance cannot be fetched or read, or the USDT equity
    found is zero or negative (zero being what an account without a
    USDT entry yields), [check] returns at once: the state, with its
    baseline, state file and ledger, is the one it was called with,
    and nothing is flattened, notified or halted. *)
Theorem unusable_equity_short_circuits (rm : State) (w : World)
        (traders : list DeepSeekTrader.Trader) :
  match read_equity w with
  | None => True
  | Some usdt_eq => usdt_eq <= 0
  end ->
  check rm w traders = (rm, [])
  /\ (fetch_balance w = None -> read_equity w = None)
  /\ (forall balance,
        fetch_balance w = Some balance ->
        info_data balance = None -> usdt balance = None ->
        read_equity w = Some 0).
Proof.
  intro H. split; [| split].
  - unfold check. destruct (read_equity w) as [usdt_eq |]; [| reflexivity].
    now rewrite (proj2 (leb_true _ _) H).
  - intro Hf. unfold read_equity. now rewrite Hf.
  - intros balance Hf Hi Hu. unfold read_equity, usdt_equity, fallback_equity.
    now rewrite Hf, Hi, Hu.
Qed.

Lemma unusable_equity_short_circuits_witness :
  check Scenario.fresh_manager Scenario.offline_world []
  = (Scenario.fresh_manager, []).
Proof.
  refine (proj1 (unusable_equity_short_circuits Scenario.fresh_manager
                   Scenario.offline_world [] _)).
  exact I.
Defined.


End RiskSpec.

(** ** The volatility classifier *)

Module VolatilitySpec.

Import DeepSeekTrader TraderOps PyFacts.
Local Open Scope string_scope.

Lemma ranges_nil (ks : list Candle) :
  Forall (fun k => low k <= 0) ks -> ranges ks = [].
Proof.
  induction 1 as [| k ks Hk _ IH]; simpl; [reflexivity |].
  now rewrite (proj2 (ltb_false _ _) Hk).
Qed.

Lemma trend_needs_adx (ks : list Candle) (adx : option Q) :
  get_market_volatility ks adx = HIGH_TREND ->
  exists a, adx = Some a /\ 25 < a.
Proof.
  unfold get_market_volatility.
  destruct (length ks <? 5)%nat; [discriminate |].
  destruct (Py.div _ _) as [avg |]; [| discriminate].
  destruct (Py.ltb 0.5 avg).
  - destruct adx as [a |]; [| discriminate].
    destruct (Py.ltb 25 a) eqn:E; [| discriminate].
    intros _. exists a. split; [reflexivity | now apply ltb_true].
  - destruct (Py.ltb avg 0.1); discriminate.
Qed.

(** X1. With fewer than five candles, or with no candle whose low is
    positive, the classifier answers NORMAL whatever the ADX is. *)
Theorem volatility_without_data (ks : list Candle) (adx : option Q) :
  (length ks < 5)%nat \/ Forall (fun k => low k <= 0) ks ->
  get_market_volatility ks adx = NORMAL.
Proof.
  intros [Hlen | Hlow]; unfold get_market_volatility.
  - now rewrite (proj2 (Nat.ltb_lt _ _) Hlen).
  - destruct (length ks <? 5)%nat; [reflexivity |].
    now rewrite (ranges_nil ks Hlow).
Qed.

Lemma volatility_without_data_witness :
  get_market_volatility Cases.unpriced_candles (Some 40) = NORMAL.
Proof.
  apply volatility_without_data. right.
  repeat constructor; simpl; unfold Qle; simpl; lia.
Defined.

(** X2. The trend label is given only on a known ADX above 25, and the
    status handed to the advisor is never that label: the indicators
    built by [get_ohlcv] have no ["adx"] key, so the ADX read from them
    is always [None]. *)
Theorem trend_persona_unreachable (ks : list Candle)
        (rsi macd signal_line macd_hist upper_band lower_band sma_20
         : option Q) (adx : option Q) :
  (get_market_volatility ks adx = HIGH_TREND ->
   exists a, adx = Some a /\ 25 < a)
  /\ volatility_status ks
       (ohlcv_indicators rsi macd signal_line macd_hist
                         upper_band lower_band sma_20)
     <> HIGH_TREND.
Proof.
  split; [apply trend_needs_adx |].
  unfold volatility_status. intro H.
  apply trend_needs_adx in H. destruct H as (a & Ha & _).
  discriminate Ha.
Qed.

Lemma trend_persona_unreachable_witness :
  (get_market_volatility Cases.calm_candles (Some 40) = HIGH_TREND ->
   exists a, Some 40 = Some a /\ 25 < a)
  /\ volatility_status Cases.calm_candles
       (ohlcv_indicators (Some 50) None None None None None None)
     <> HIGH_TREND.
Proof.
  exact (trend_persona_unreachable Cases.calm_candles
           (Some 50) None None None None None None (Some 40)).
Defined.

End VolatilitySpec.

(** ** The helpers of the trader *)

Module TraderOpsSpec.

Import DeepSeekTrader TraderOps PyFacts.
Local Open Scope string_scope.

Lemma max2_ge_l (a b : Q) : a <= Py.max2 a b.
Proof.
  unfold Py.max2. destruct (Py.ltb a b) eqn:E; reflect_cmp; lra.
Qed.

Lemma max2_ge_r (a b : Q) : b <= Py.max2 a b.
Proof.
  unfold Py.max2. destruct (Py.ltb a b) eqn:E; reflect_cmp; lra.
Qed.

(** X4. The notional the automatic amount aims at is positive, is at
    least one and a half times the exchange's minimum order value when
    that is known, and at least 5 USDT when it is not. *)
Theorem auto_target_clears_minimum (t : Trader) (m : Market) :
  0 < target_usdt t m
  /\ (forall mc, min_cost m = Some mc -> ~ mc == 0 ->
        mc * 1.5 <= target_usdt t m)
  /\ (Py.truthy (min_cost m) = false -> 5 <= target_usdt t m).
Proof.
  unfold target_usdt.
  set (quota := if Py.ltb 0 (initial_balance t)
                then allocated_quota t else 0).
  set (target := if Py.leb quota 0 then 10 else quota * 0.1).
  assert (Ht : 0 < target).
  { unfold target. destruct (Py.leb quota 0) eqn:E; reflect_cmp; lra. }
  split; [| split].
  - destruct (Py.truthy (min_cost m)).
    + pose proof (max2_ge_l target (Py.or_zero (min_cost m) * 1.5)). lra.
    + pose proof (max2_ge_l target 5). lra.
  - intros mc Hmc Hnz. rewrite Hmc. simpl.
    rewrite (proj2 (eqb_false _ _) Hnz). simpl. apply max2_ge_r.
  - intro Hf. rewrite Hf. apply max2_ge_r.
Qed.

Lemma auto_target_clears_minimum_witness :
  0 < target_usdt Scenario.quota_trader (mkMarket None (Some 10))
  /\ (forall mc, min_cost (mkMarket None (Some 10)) = Some mc -> ~ mc == 0 ->
        mc * 1.5 <= target_usdt Scenario.quota_trader
                                (mkMarket None (Some 10)))
  /\ (Py.truthy (min_cost (mkMarket None (Some 10))) = false ->
      5 <= target_usdt Scenario.quota_trader (mkMarket None (Some 10))).
Proof.
  exact (auto_target_clears_minimum Scenario.quota_trader
           (mkMarket None (Some 10))).
Defined.

(** X5. A configured positive amount is used as it is. Otherwise the
    amount is computed from the target: it is 0 as soon as the market
    lookup, the division by the price or the precision step fails, and
    when the precision step never increases an amount its notional at
    a positive price stays within the target. *)
Theorem auto_amount_outcomes (config_amount : option Q) (t : Trader)
        (ex : Exchange) (price : Q) :
  (forall c, config_amount = Some c -> 0 < c ->
     update_amount_auto config_amount t ex price = c)
  /\ (match config_amount with Some c => c <= 0 | None => True end ->
      (market ex = None \/ price == 0
       \/ (forall q, amount_to_precision ex q = None)) ->
      update_amount_auto config_amount t ex price = 0)
  /\ (match config_amount with Some c => c <= 0 | None => True end ->
      forall m, market ex = Some m -> 0 < price ->
      (forall q r, amount_to_precision ex q = Some r -> r <= q) ->
      update_amount_auto config_amount t ex price * price <= target_usdt t m).
Proof.
  assert (Hauto :
            match config_amount with Some c => c <= 0 | None => True end ->
            update_amount_auto config_amount t ex price
            = update_amount_auto None t ex price).
  { intro H. unfold update_amount_auto.
    destruct config_amount as [c |]; [| reflexivity].
    now rewrite (proj2 (ltb_false _ _) H). }
  split; [| split].
  - intros c Hc Hpos. subst. unfold update_amount_auto.
    now rewrite (proj2 (ltb_true _ _) Hpos).
  - intros Hcfg Hfail. rewrite (Hauto Hcfg). unfold update_amount_auto.
    destruct (market ex) as [m |]; [| reflexivity].
    destruct Hfail as [Hm | [Hp | Hprec]]; [discriminate Hm | |].
    + unfold Py.div. now rewrite (proj2 (eqb_true _ _) Hp).
    + destruct (Py.div _ _) as [raw |]; [| reflexivity].
      now rewrite Hprec.
  - intros Hcfg m Hm Hp Hprec. rewrite (Hauto Hcfg).
    unfold update_amount_auto. rewrite Hm.
    pose proof (auto_target_clears_minimum t m) as [Htarget _].
    unfold Py.div.
    assert (Hnz : Py.eqb price 0 = false) by (apply eqb_false; lra).
    rewrite Hnz.
    destruct (amount_to_precision ex (target_usdt t m / price)) as [a |] eqn:Ha.
    + apply Hprec in Ha.
      assert (Hmul : a * price <= target_usdt t m / price * price) by nra.
      assert (Hcancel : target_usdt t m / price * price == target_usdt t m)
        by (field; lra).
      lra.
    + lra.
Qed.

Lemma auto_amount_outcomes_witness :
  update_amount_auto (Some 2) Scenario.quota_trader Scenario.thin_account 0
  = 2.
Proof.
  refine (proj1 (auto_amount_outcomes (Some 2) Scenario.quota_trader
                   Scenario.thin_account 0) 2 _ _); reflexivity.
Defined.

(** X6. A fee answer in which either rate is present but null changes
    neither rate, even when the other one is a valid number; and
    refreshing twice from the same answer gives what refreshing once
    gave. *)
Theorem fee_refresh_all_or_nothing (rates : Q * Q) (f : Fees) :
  (taker f = Null \/ maker f = Null ->
   update_fee_rate rates (Some f) = rates)
  /\ update_fee_rate (update_fee_rate rates (Some f)) (Some f)
     = update_fee_rate rates (Some f).
Proof.
  split.
  - intros [H | H]; unfold update_fee_rate; rewrite H; simpl;
      [reflexivity |].
    now destruct (field_float (taker f) (fst rates)).
  - destruct rates as [tk mk]. unfold update_fee_rate.
    destruct (taker f) as [| | q1], (maker f) as [| | q2];
      cbn [field_float fst snd]; try reflexivity;
      match goal with
      | |- context [if ?c then (tk, mk) else _] => destruct c eqn:E
      end; cbn [field_float fst snd]; rewrite ?E; try reflexivity;
      match goal with
      | |- context [if ?c then _ else _] => now destruct c
      end.
Qed.

Lemma fee_refresh_all_or_nothing_witness :
  update_fee_rate (0.001, 0.0008) (Some Cases.half_fees) = (0.001, 0.0008).
Proof.
  refine (proj1 (fee_refresh_all_or_nothing (0.001, 0.0008) Cases.half_fees)
                _).
  right. reflexivity.
Defined.

Lemma first_buy_app (l1 l2 : list Trade) :
  Forall (fun tr => (trade_side tr =? "buy") = false) l1 ->
  first_buy (l1 ++ l2)%list = first_buy l2.
Proof.
  induction 1 as [| tr l1 Htr _ IH]; simpl; [reflexivity |].
  now rewrite Htr.
Qed.

(** X7. Without a position that carries a positive entry price, the
    reference entry price is the price of the most recent buy among the
    trades fetched, however many sells came after it; a positive entry
    price of the open position comes before any trade. *)
Theorem entry_price_is_latest_buy (t : Trader) (ex : Exchange)
        (before after : list Trade) (tr : Trade) :
  trade_side tr = "buy" ->
  Forall (fun x => (trade_side x =? "buy") = false) after ->
  (match get_current_position t ex with
   | Some pos => entry_price pos <= 0
   | None => True
   end ->
   get_avg_entry_price t ex (Some (before ++ tr :: after)%list) = trade_price tr)
  /\ (forall pos, get_current_position t ex = Some pos ->
        0 < entry_price pos ->
        get_avg_entry_price t ex (Some (before ++ tr :: after)%list)
        = entry_price pos).
Proof.
  intros Hbuy Hafter. split.
  - intro Hpos.
    assert (Hfrom : first_buy (rev (before ++ tr :: after)%list) = trade_price tr).
    { rewrite rev_app_distr. simpl. rewrite <- app_assoc.
      rewrite first_buy_app.
      - simpl. now rewrite Hbuy.
      - apply Forall_rev. exact Hafter. }
    unfold get_avg_entry_price.
    destruct (get_current_position t ex) as [pos |]; [| exact Hfrom].
    now rewrite (proj2 (ltb_false _ _) Hpos).
  - intros pos Hp Hentry. unfold get_avg_entry_price. rewrite Hp.
    now rewrite (proj2 (ltb_true _ _) Hentry).
Qed.

Lemma entry_price_is_latest_buy_witness :
  get_avg_entry_price Scenario.spot_trader (Scenario.quiet [] 100)
                      (Some ([mkTrade "buy" 90] ++ mkTrade "buy" 95
                               :: [mkTrade "sell" 99])%list)
  = 95.
Proof.
  refine (proj1 (entry_price_is_latest_buy Scenario.spot_trader
                   (Scenario.quiet [] 100) [mkTrade "buy" 90]
                   [mkTrade "sell" 99] (mkTrade "buy" 95) _ _) _).
  - reflexivity.
  - repeat constructor.
  - exact I.
Defined.

(** X8. When the balance lists no USDT, neither under its own key nor
    among the details of the unified account, the account balance
    returned is the free amount of the symbol's base currency: the
    same number as the spot balance, counted in coins. *)
Theorem account_balance_falls_back_to_coin (sym : string) (b : Funds) :
  assoc (free b) "USDT" = None ->
  in_details b "USDT" = Some None ->
  get_account_balance sym (Some b) = get_spot_balance sym (Some b).
Proof.
  intros Hfree Hdet. unfold get_account_balance, get_spot_balance.
  now rewrite Hfree, Hdet.
Qed.

Lemma account_balance_falls_back_to_coin_witness :
  get_account_balance "ETH/USDT" (Some Cases.coin_only_funds)
  = get_spot_balance "ETH/USDT" (Some Cases.coin_only_funds).
Proof.
  apply account_balance_falls_back_to_coin; reflexivity.
Defined.

Lemma base_currency_no_slash (s : string) :
  Cases.no_slash (base_currency s) = true.
Proof.
  induction s as [| c s IH]; simpl; [reflexivity |].
  destruct (Ascii.eqb c "/") eqn:E; simpl; [reflexivity |].
  now rewrite E, IH.
Qed.

(** X9. The base currency of a symbol is what precedes its first
    slash: a part without a slash, followed by a slash and anything,
    gives that part back, and so does the part alone. *)
Theorem base_currency_before_slash (base rest : string) :
  Cases.no_slash base = true ->
  base_currency (base ++ String "/" rest) = base
  /\ base_currency base = base.
Proof.
  induction base as [| c base IH]; simpl; intro H.
  - now split.
  - apply andb_true_iff in H. destruct H as [Hc Hb].
    apply negb_true_iff in Hc. rewrite Hc.
    destruct (IH Hb) as [H1 H2]. now rewrite H1, H2.
Qed.

Lemma base_currency_before_slash_witness :
  base_currency ("ETH" ++ String "/" "USDT:USDT") = "ETH"
  /\ base_currency "ETH" = "ETH".
Proof.
  apply base_currency_before_slash. reflexivity.
Defined.

(** *** The rolling histories *)

Lemma tl_skipn {A : Type} (k : nat) (l : list A) :
  tl (skipn k l) = skipn (S k) l.
Proof.
  revert l. induction k as [| k IH]; intro l.
  - now destruct l.
  - destruct l as [| x l]; [reflexivity |].
    simpl skipn at 1. rewrite IH. reflexivity.
Qed.

Lemma tail_rows_length {A : Type} (n : nat) (l : list A) :
  length (tail_rows n l) = Nat.min n (length l).
Proof.
  unfold tail_rows. rewrite length_skipn. lia.
Qed.

Lemma push_tail_rows {A : Type} (n : nat) (ys : list A) (x : A) :
  push_bounded n (tail_rows n ys) x = tail_rows n (ys ++ [x])%list.
Proof.
  unfold push_bounded. rewrite length_app, tail_rows_length. simpl.
  unfold tail_rows. rewrite length_app. simpl.
  destruct (Nat.ltb_spec n (Nat.min n (length ys) + 1)) as [H | H].
  - assert (Hle : (n <= length ys)%nat) by lia.
    replace (skipn (length ys - n) ys ++ [x])%list
      with (skipn (length ys - n) (ys ++ [x])%list).
    + rewrite tl_skipn. f_equal. lia.
    + rewrite skipn_app.
      replace (length ys - n - length ys)%nat with 0%nat by lia.
      reflexivity.
  - assert (Hlt : (length ys < n)%nat) by lia.
    replace (length ys - n)%nat with 0%nat by lia.
    replace (length ys + 1 - n)%nat with 0%nat by lia.
    reflexivity.
Qed.

Lemma fold_push_tail_rows {A : Type} (n : nat) (xs ys : list A) :
  fold_left (push_bounded n) xs (tail_rows n ys)
  = tail_rows n (ys ++ xs)%list.
Proof.
  revert ys. induction xs as [| x xs IH]; intro ys; simpl.
  - now rewrite app_nil_r.
  - rewrite push_tail_rows, IH, <- app_assoc. reflexivity.
Qed.

(** X10. Starting from an empty history, appending entries one by one
    under a limit leaves exactly the last [limit] entries, in their
    order of arrival: the window is first-in first-out. *)
Theorem history_is_last_entries {A : Type} (limit : nat) (xs : list A) :
  fold_left (push_bounded limit) xs [] = tail_rows limit xs
  /\ length (fold_left (push_bounded limit) xs []) = Nat.min limit (length xs).
Proof.
  assert (H : fold_left (push_bounded limit) xs [] = tail_rows limit xs).
  { change (@nil A) with (tail_rows limit (@nil A)) at 1.
    now rewrite fold_push_tail_rows. }
  split; [exact H |]. rewrite H. apply tail_rows_length.
Qed.

Lemma push_bounded_length {A : Type} (limit : nat) (h : list A) (x : A) :
  (length h <= limit)%nat -> (length (push_bounded limit h x) <= limit)%nat.
Proof.
  intro H. unfold push_bounded.
  destruct (Nat.ltb_spec limit (length (h ++ [x])%list)) as [Hlt | Hge];
    [| exact Hge].
  destruct h as [| y h]; simpl in *; [lia |].
  rewrite length_app. simpl. lia.
Qed.

(** X11. A price history that is within its limit stays within it
    through the warm-up of [get_ohlcv] and any number of appended
    candles. *)
Theorem history_stays_bounded {A : Type} (limit : nat)
        (history rows xs : list A) :
  (length history <= limit)%nat ->
  (length (fold_left (push_bounded limit) xs (warm_up limit history rows))
   <= limit)%nat.
Proof.
  intro H.
  assert (Hw : (length (warm_up limit history rows) <= limit)%nat).
  { unfold warm_up. destruct history as [| y h]; [| exact H].
    destruct (limit <? length rows)%nat; [| simpl; lia].
    rewrite tail_rows_length. lia. }
  revert Hw. generalize (warm_up limit history rows).
  induction xs as [| x xs IH]; intros h Hh; simpl; [exact Hh |].
  apply IH. now apply push_bounded_length.
Qed.

Lemma history_stays_bounded_witness :
  (length (fold_left (push_bounded 2) [7; 8; 9]%nat
                     (warm_up 2 [] [1; 2; 3; 4]%nat)) <= 2)%nat.
Proof.
  apply history_stays_bounded. simpl. lia.
Defined.

(** *** The forced close *)

Lemma first_open_positive (sym : string) (lev : Q) (ps : list RawPosition)
      (p : Position) :
  first_open sym lev ps = Some p -> 0 < size p.
Proof.
  induction ps as [| r ps IH]; simpl; [discriminate |].
  destruct ((raw_symbol r =? sym) && Py.ltb 0 (Py.or_zero (contracts r)))
    eqn:E; [| exact IH].
  apply andb_true_iff in E. destruct E as [_ E]. reflect_cmp.
  intro H. inversion H; subst. exact E.
Qed.

Lemma open_position_positive (t : Trader) (ex : Exchange) (p : Position) :
  get_current_position t ex = Some p -> 0 < size p.
Proof.
  unfold get_current_position.
  destruct (fetch_positions ex) as [ps |]; [| discriminate].
  apply first_open_positive.
Qed.

(** X12. The global close sends one order for each trader that holds a
    contracts position and none for the others, so that a spot holding
    is not sold; every order sent is reduce-only, without margin-mode
    tag, for a positive quantity. *)
Theorem global_close_orders (traders : list (Trader * Exchange)) :
  Forall (fun o => reduceOnly o = true /\ tdMode o = None /\ 0 < quantity o)
         (RiskOps.close_all_traders traders)
  /\ length (RiskOps.close_all_traders traders)
     = length (filter Cases.holds_position traders).
Proof.
  unfold RiskOps.close_all_traders.
  induction traders as [| [t ex] traders [IHf IHl]]; simpl.
  - split; [constructor | reflexivity].
  - unfold close_all_positions at 1 3, Cases.holds_position at 1. simpl.
    destruct (get_current_position t ex) as [p |] eqn:Hp; simpl.
    + split; [| now rewrite IHl].
      constructor; [| exact IHf]. simpl.
      repeat split. now apply (open_position_positive t ex).
    + now split.
Qed.


End TraderOpsSpec.

(** ** What [execute_trade] sends, on every path *)

Module RouterSpec.

Import DeepSeekTrader PyFacts.
Local Open Scope string_scope.

(** Past the gate a signal has kept its action or has become HOLD. *)
Lemma gate_keeps_direction (t : Trader) (s : Signal)
      (pos : option Position) (price : Q) :
  signal (profit_filter t pos price (confidence_filter t s)) = signal s
  \/ signal (profit_filter t pos price (confidence_filter t s)) = "HOLD".
Proof.
  assert (Hp : forall x, signal (profit_filter t pos price x) = signal x
                         \/ signal (profit_filter t pos price x) = "HOLD").
  { intro x. unfold profit_filter.
    destruct (signal x =? "SELL"); [| now left].
    destruct pos as [p |]; [| now left].
    destruct (Py.leb 0 _ && Py.ltb _ _); [now right | now left]. }
  unfold confidence_filter.
  destruct (Py.ltb (current_conf_val s) (min_conf_val t)); [| apply Hp].
  right. destruct (Hp (set_signal s "HOLD" (reason s ++ confidence_suffix t s)))
    as [H | H]; rewrite H; reflexivity.
Qed.

Lemma submit_orders (ex : Exchange) (o o' : Order) :
  In o' (orders (fst (submit ex o))) -> o' = o.
Proof.
  unfold submit.
  destruct (create_market_order ex o); simpl; intros [H | []]; now subst.
Qed.

Lemma submit_orders_eq (ex : Exchange) (o : Order) :
  orders (fst (submit ex o)) = [o].
Proof.
  unfold submit. now destruct (create_market_order ex o).
Qed.

(** The orders of the margin branch: the entry alone, the close
    alone, or the close followed by the entry. *)
Lemma margin_orders_shape (t : Trader) (ex : Exchange)
      (pos : option Position) (direction : OrderSide) (opposite : string)
      (closed : Q -> Notice) (a : Q) :
  let entry := mkOrder direction a false (Some (trade_mode t)) in
  orders (fst (margin_orders t ex pos direction opposite closed a)) = []
  \/ orders (fst (margin_orders t ex pos direction opposite closed a))
     = [entry]
  \/ exists p, pos = Some p
       /\ (orders (fst (margin_orders t ex pos direction opposite closed a))
           = [mkOrder direction (size p) true None]
           \/ orders (fst (margin_orders t ex pos direction opposite closed a))
              = [mkOrder direction (size p) true None; entry]).
Proof.
  cbv zeta. unfold margin_orders.
  destruct pos as [p |]; [| right; left; apply submit_orders_eq].
  destruct (side p =? opposite).
  - right. right. exists p. split; [reflexivity |].
    destruct (create_market_order ex (mkOrder direction (size p) true None)).
    + right.
      pose proof (submit_orders_eq ex
                    (mkOrder direction a false (Some (trade_mode t)))) as Hs.
      destruct (submit ex _) as [evs e]. simpl in *. now rewrite Hs.
    + now left.
  - destruct (known_side p); [right; left; apply submit_orders_eq | now left].
Qed.

Lemma place_orders_shape (t : Trader) (ex : Exchange) (s : Signal)
      (pos : option Position) (a : Q) :
  orders (fst (place_orders t ex s pos a)) = []
  \/ exists d,
       ((signal s = "BUY" /\ d = buy) \/ (signal s = "SELL" /\ d = sell))
       /\ (orders (fst (place_orders t ex s pos a))
           = [mkOrder d a false
                      (if is_cash (trade_mode t) then None
                       else Some (trade_mode t))]
           \/ (is_cash (trade_mode t) = false
               /\ exists p, pos = Some p
                    /\ (orders (fst (place_orders t ex s pos a))
                        = [mkOrder d (size p) true None]
                        \/ orders (fst (place_orders t ex s pos a))
                           = [mkOrder d (size p) true None;
                              mkOrder d a false (Some (trade_mode t))]))).
Proof.
  unfold place_orders.
  destruct (is_cash (trade_mode t)) eqn:Hc.
  - destruct (signal s =? "BUY") eqn:Hb.
    + right. exists buy. apply String.eqb_eq in Hb.
      split; [now left |]. left. apply submit_orders_eq.
    + destruct (signal s =? "SELL") eqn:Hs; [| now left].
      destruct (coin_balance ex) as [held |]; [| now left].
      destruct (Py.leb a held); [| now left].
      right. exists sell. apply String.eqb_eq in Hs.
      split; [now right |]. left. apply submit_orders_eq.
  - destruct (signal s =? "BUY") eqn:Hb.
    + apply String.eqb_eq in Hb.
      destruct (margin_orders_shape t ex pos buy "short" ClosedShort a)
        as [H | [H | (p & Hp & H)]]; [now left | |];
        right; exists buy; (split; [now left |]).
      * now left.
      * right. split; [reflexivity |]. now exists p.
    + destruct (signal s =? "SELL") eqn:Hs; [| now left].
      apply String.eqb_eq in Hs.
      destruct (margin_orders_shape t ex pos sell "long" ClosedLong a)
        as [H | [H | (p & Hp & H)]]; [now left | |];
        right; exists sell; (split; [now right |]).
      * now left.
      * right. split; [reflexivity |]. now exists p.
Qed.

Lemma sizing_positive (t : Trader) (ex : Exchange) (s : Signal)
      (evs : list Event) (limit a : Q) :
  sizing t ex s = (evs, inr (limit, a)) -> 0 < a.
Proof.
  unfold sizing.
  destruct (ohlcv_price_sizing ex) as [price |]; [| discriminate].
  destruct (max_trade_limit t ex s price) as [[closing lim] |];
    [| discriminate].
  destruct (venue_rules _ _ _ _ _) as [evs' [e | q]]; [discriminate |].
  destruct (Py.leb q 0) eqn:E; [discriminate |].
  intro H. inversion H; subst. now reflect_cmp.
Qed.

(** Every way in which [execute_trade] sends orders. *)
Lemma orders_characterised (t : Trader) (ex : Exchange) (s : Signal) :
  orders (events (execute_trade t ex s)) = []
  \/ exists d a,
       ((signal s = "BUY" /\ d = buy) \/ (signal s = "SELL" /\ d = sell))
       /\ 0 < a
       /\ test_mode t = false
       /\ slippage_exceeded t ex = false
       /\ ~ current_conf_val s < min_conf_val t
       /\ (orders (events (execute_trade t ex s))
           = [mkOrder d a false
                      (if is_cash (trade_mode t) then None
                       else Some (trade_mode t))]
           \/ (is_cash (trade_mode t) = false
               /\ exists p, get_current_position t ex = Some p
                    /\ 0 < size p
                    /\ (orders (events (execute_trade t ex s))
                        = [mkOrder d (size p) true None]
                        \/ orders (events (execute_trade t ex s))
                           = [mkOrder d (size p) true None;
                              mkOrder d a false (Some (trade_mode t))]))).
Proof.
  rewrite SizerSpec.execute_trade_events.
  destruct (ohlcv_price_entry ex) as [price |]; [| now left].
  destruct (signal (confidence_filter t s) =? "HOLD") eqn:Hh; [now left |].
  destruct (test_mode t); [now left |].
  destruct (slippage_exceeded t ex); [now left |].
  assert (Hconf : ~ current_conf_val s < min_conf_val t).
  { intro H. rewrite (GateSpec.confidence_filter_blocks t s H) in Hh.
    discriminate Hh. }
  set (s2 := profit_filter t (get_current_position t ex) price
                           (confidence_filter t s)).
  assert (Hdir : forall d,
             (signal s2 = "BUY" /\ d = buy) \/ (signal s2 = "SELL" /\ d = sell) ->
             (signal s = "BUY" /\ d = buy) \/ (signal s = "SELL" /\ d = sell)).
  { intros d Hd.
    destruct (gate_keeps_direction t s (get_current_position t ex) price)
      as [Hk | Hk]; fold s2 in Hk.
    - now rewrite <- Hk.
    - rewrite Hk in Hd. destruct Hd as [[H _] | [H _]]; discriminate H. }
  unfold sizing_and_routing.
  pose proof (GateSpec.sizing_places_nothing t ex s2) as Hnone.
  destruct (sizing t ex s2) as [evs [e | [limit a]]] eqn:Hsz;
    simpl in Hnone |- *; [now left |].
  pose proof (sizing_positive t ex s2 evs limit a Hsz) as Hpos.
  pose proof (place_orders_shape t ex s2 (get_current_position t ex) a)
    as Hshape.
  destruct (place_orders t ex s2 (get_current_position t ex) a)
    as [evs' e] eqn:Hpl.
  simpl in Hshape |- *. rewrite GateSpec.orders_app, Hnone. simpl.
  destruct Hshape as [H | (d & Hd & H)]; [now left |].
  right. exists d, a. repeat (split; [now auto |]).
  destruct H as [H | (Hm & p & Hp & H)]; [now left |].
  right. split; [exact Hm |]. exists p. split; [exact Hp |].
  split; [| exact H].
  now apply (TraderOpsSpec.open_position_positive t ex).
Qed.

(** X13. An order leaves [execute_trade] only in live mode, with the
    slippage guard not tripped and the confidence at or above the
    configured floor, and only for a BUY or a SELL; every order then
    goes in the direction of the signal. *)
Theorem orders_need_live_directed_signal (t : Trader) (ex : Exchange)
        (s : Signal) (o : Order) :
  In o (orders (events (execute_trade t ex s))) ->
  test_mode t = false
  /\ slippage_exceeded t ex = false
  /\ ~ current_conf_val s < min_conf_val t
  /\ ((signal s = "BUY" /\ order_side o = buy)
      \/ (signal s = "SELL" /\ order_side o = sell)).
Proof.
  intro Hin.
  destruct (orders_characterised t ex s)
    as [H | (d & a & Hd & _ & Ht & Hs & Hc & H)];
    [rewrite H in Hin; destruct Hin |].
  repeat (split; [assumption |]).
  assert (Ho : order_side o = d).
  { destruct H as [H | (_ & p & _ & _ & [H | H])]; rewrite H in Hin;
      simpl in Hin; intuition (subst; reflexivity). }
  rewrite Ho. exact Hd.
Qed.

Lemma orders_need_live_directed_signal_witness :
  test_mode Scenario.spot_trader = false
  /\ slippage_exceeded Scenario.spot_trader Scenario.thin_account = false
  /\ ~ current_conf_val Scenario.buy_signal
       < min_conf_val Scenario.spot_trader
  /\ ((signal Scenario.buy_signal = "BUY"
       /\ order_side (mkOrder buy 5.2500 false None) = buy)
      \/ (signal Scenario.buy_signal = "SELL"
          /\ order_side (mkOrder buy 5.2500 false None) = sell)).
Proof.
  apply (orders_need_live_directed_signal Scenario.spot_trader
           Scenario.thin_account Scenario.buy_signal).
  vm_compute. left. reflexivity.
Defined.

(** X14. One call of [execute_trade] sends at most two orders: an
    entry alone, or for a margin trader holding a position a
    reduce-only close of that position's size, alone or followed by
    the entry.  The entry is never reduce-only and carries the margin
    mode exactly when the trader is not in spot mode; the close carries
    no margin-mode tag. *)
Theorem orders_are_close_then_entry (t : Trader) (ex : Exchange) (s : Signal) :
  orders (events (execute_trade t ex s)) = []
  \/ exists d a,
       let entry := mkOrder d a false
                            (if is_cash (trade_mode t) then None
                             else Some (trade_mode t)) in
       orders (events (execute_trade t ex s)) = [entry]
       \/ (is_cash (trade_mode t) = false
           /\ exists p, get_current_position t ex = Some p
                /\ (orders (events (execute_trade t ex s))
                    = [mkOrder d (size p) true None]
                    \/ orders (events (execute_trade t ex s))
                       = [mkOrder d (size p) true None; entry])).
Proof.
  destruct (orders_characterised t ex s)
    as [H | (d & a & _ & _ & _ & _ & _ & H)]; [now left |].
  right. exists d, a. cbv zeta.
  destruct H as [H | (Hm & p & Hp & _ & H)]; [now left |].
  right. split; [exact Hm |]. exists p. split; [exact Hp |].
  now rewrite Hm.
Qed.

(** X15. Every order that [execute_trade] sends is for a positive
    quantity. *)
Theorem orders_are_positive (t : Trader) (ex : Exchange) (s : Signal) :
  Forall (fun o => 0 < quantity o) (orders (events (execute_trade t ex s))).
Proof.
  destruct (orders_characterised t ex s)
    as [H | (d & a & _ & Ha & _ & _ & _ & H)];
    [rewrite H; constructor |].
  destruct H as [H | (_ & p & _ & Hp & [H | H])]; rewrite H;
    repeat constructor; assumption.
Qed.


(** X16. A spot SELL never sends more than the free coin balance read
    just before the order: the quantity of a sell order of a spot
    trader is at most that balance. *)
Theorem spot_sell_within_holding (t : Trader) (ex : Exchange) (s : Signal)
        (o : Order) :
  trade_mode t = cash ->
  In o (orders (events (execute_trade t ex s))) ->
  order_side o = sell ->
  exists held, coin_balance ex = Some held /\ quantity o <= held.
Proof.
  intros Hc Hin Hside.
  destruct (SizerSpec.execute_trade_orders t ex s o Hin)
    as (price & evs & limit & a & _ & _ & _ & Hpl).
  revert Hpl. unfold place_orders. rewrite Hc. simpl.
  destruct (signal _ =? "BUY").
  - intro H. apply submit_orders in H. subst o. discriminate Hside.
  - destruct (signal _ =? "SELL"); [| intros []].
    destruct (coin_balance ex) as [held |]; [| intros []].
    destruct (Py.leb a held) eqn:E; [| intros []].
    intro H. apply submit_orders in H. subst o. simpl.
    exists held. split; [reflexivity | now reflect_cmp].
Qed.

Lemma spot_sell_within_holding_witness :
  exists held,
    coin_balance Scenario.holding_forty = Some held
    /\ quantity (mkOrder sell 20.0000 false None) <= held.
Proof.
  apply (spot_sell_within_holding Scenario.quota_trader
           Scenario.holding_forty Scenario.big_sell_signal).
  - reflexivity.
  - vm_compute. left. reflexivity.
  - reflexivity.
Defined.

(** X17. The profit filter never holds back an exit at a loss: with a
    positive entry price, a long quoted below its entry or a position
    on any other side quoted above it leaves the signal as it is,
    whatever the fee rate. *)
Theorem losing_exit_passes_fee_filter (t : Trader) (s : Signal)
        (p : Position) (price : Q) :
  0 < entry_price p ->
  (side p = "long" /\ price < entry_price p)
  \/ (side p <> "long" /\ entry_price p < price) ->
  position_pnl_pct p price < 0
  /\ profit_filter t (Some p) price s = s.
Proof.
  intros Hentry Hloss.
  assert (Hneg : position_pnl_pct p price < 0).
  { unfold position_pnl_pct. rewrite (proj2 (ltb_true _ _) Hentry).
    destruct Hloss as [[Hs Hp] | [Hs Hp]].
    - rewrite Hs. simpl.
      apply Qlt_shift_div_r; [exact Hentry | lra].
    - apply String.eqb_neq in Hs. rewrite Hs.
      apply Qlt_shift_div_r; [exact Hentry | lra]. }
  split; [exact Hneg |]. unfold profit_filter.
  destruct (signal s =? "SELL"); [| reflexivity].
  assert (H0 : Py.leb 0 (position_pnl_pct p price) = false)
    by (apply leb_false; exact Hneg).
  now rewrite H0.
Qed.

Lemma losing_exit_passes_fee_filter_witness :
  position_pnl_pct (mkPosition "long" 2 100 0 10 "ETH/USDT:USDT") 90 < 0
  /\ profit_filter Scenario.swap_trader
       (Some (mkPosition "long" 2 100 0 10 "ETH/USDT:USDT")) 90
       Scenario.sell_signal
     = Scenario.sell_signal.
Proof.
  apply losing_exit_passes_fee_filter.
  - reflexivity.
  - left. split; reflexivity.
Defined.

(** X18. A position whose entry price is not reported (read as 0)
    counts as a profit of exactly 0, which lies under every threshold
    built from a non-negative fee: a SELL on it is turned into HOLD and
    [execute_trade] sends no order. *)
Theorem unknown_entry_blocks_sell (t : Trader) (ex : Exchange) (s : Signal)
        (p : Position) :
  get_current_position t ex = Some p ->
  entry_price p <= 0 ->
  0 <= taker_fee_rate t ->
  signal s = "SELL" ->
  (forall price, signal (profit_filter t (Some p) price s) = "HOLD")
  /\ orders (events (execute_trade t ex s)) = [].
Proof.
  intros Hpos Hentry Hfee Hsell.
  assert (Hblock : forall price x, signal x = "SELL" ->
                     signal (profit_filter t (Some p) price x) = "HOLD").
  { intros price x Hx.
    assert (Hin : Py.leb 0 0 && Py.ltb 0 (min_profit_threshold t) = true).
    { apply andb_true_iff. split; [apply leb_true; lra |].
      apply ltb_true. unfold min_profit_threshold, round_trip_fee. lra. }
    unfold profit_filter, position_pnl_pct.
    rewrite Hx, String.eqb_refl, (proj2 (ltb_false _ _) Hentry).
    cbv zeta. now rewrite Hin. }
  split; [intro price; now apply Hblock |].
  rewrite SizerSpec.execute_trade_events.
  destruct (ohlcv_price_entry ex) as [price |]; [| reflexivity].
  destruct (signal (confidence_filter t s) =? "HOLD") eqn:Hh; [reflexivity |].
  destruct (test_mode t); [reflexivity |].
  destruct (slippage_exceeded t ex); [reflexivity |].
  apply GateSpec.hold_routes_nothing. rewrite Hpos. apply Hblock.
  unfold confidence_filter in *.
  destruct (Py.ltb _ _); [discriminate Hh | exact Hsell].
Qed.

Lemma unknown_entry_blocks_sell_witness :
  orders (events (execute_trade Scenario.swap_trader
                                (Scenario.quiet [Cases.long_unpriced] 120)
                                Scenario.sell_signal)) = [].
Proof.
  refine (proj2 (unknown_entry_blocks_sell Scenario.swap_trader
                   (Scenario.quiet [Cases.long_unpriced] 120)
                   Scenario.sell_signal
                   (mkPosition "long" 2 0 0 10 "ETH/USDT:USDT") _ _ _ _)).
  - reflexivity.
  - unfold Qle. simpl. lia.
  - unfold Qle. simpl. lia.
  - reflexivity.
Defined.

Lemma effective_le_balance (t : Trader) (ex : Exchange) (price : Q) :
  effective_balance t ex price <= account_balance ex.
Proof.
  unfold effective_balance.
  destruct (Py.ltb 0 (initial_balance t)); [| lra].
  destruct (Py.ltb _ (account_balance ex)) eqn:E; reflect_cmp; lra.
Qed.

Lemma effective_le_remaining (t : Trader) (ex : Exchange) (price : Q) :
  0 < initial_balance t ->
  effective_balance t ex price <= remaining_quota t ex price.
Proof.
  intro H. unfold effective_balance. rewrite (proj2 (ltb_true _ _) H).
  destruct (Py.ltb _ (account_balance ex)) eqn:E; reflect_cmp; lra.
Qed.

(** X19. At a positive price the notional of the BUY limit is 99% of
    the effective balance, times the leverage outside spot mode: it is
    never more than 99% of the free balance (times a non-negative
    leverage), nor, when an initial balance is configured, than 99% of
    what is left of the symbol's quota. *)
Theorem buy_limit_within_funds (t : Trader) (ex : Exchange) (s : Signal)
        (price : Q) :
  signal s = "BUY" -> 0 < price ->
  exists limit,
    max_trade_limit t ex s price = Some (false, limit)
    /\ (trade_mode t = cash ->
        limit * price == effective_balance t ex price * 0.99
        /\ limit * price <= account_balance ex * 0.99
        /\ (0 < initial_balance t ->
            limit * price <= remaining_quota t ex price * 0.99))
    /\ (trade_mode t <> cash -> 0 <= leverage t ->
        limit * price == effective_balance t ex price * leverage t * 0.99
        /\ limit * price <= account_balance ex * leverage t * 0.99
        /\ (0 < initial_balance t ->
            limit * price
            <= remaining_quota t ex price * leverage t * 0.99)).
Proof.
  intros Hbuy Hp.
  pose proof (effective_le_balance t ex price) as Hb.
  assert (Hnz : Py.eqb price 0 = false) by (apply eqb_false; lra).
  unfold max_trade_limit, Py.div. rewrite Hbuy, Hnz. simpl.
  destruct (trade_mode t) eqn:Hm; simpl; eexists;
    (split; [reflexivity |]); (split; [intro Hc | intros Hc Hlev]);
    try discriminate Hc; try (exfalso; apply Hc; reflexivity).
  - assert (Heq : effective_balance t ex price * 0.99 / price * price
                  == effective_balance t ex price * 0.99) by (field; lra).
    split; [exact Heq |]. split; [lra |].
    intro Hi. pose proof (effective_le_remaining t ex price Hi). lra.
  - assert (Heq : effective_balance t ex price * leverage t * 0.99
                  / price * price
                  == effective_balance t ex price * leverage t * 0.99)
      by (field; lra).
    split; [exact Heq |]. split; [nra |].
    intro Hi. pose proof (effective_le_remaining t ex price Hi). nra.
  - assert (Heq : effective_balance t ex price * leverage t * 0.99
                  / price * price
                  == effective_balance t ex price * leverage t * 0.99)
      by (field; lra).
    split; [exact Heq |]. split; [nra |].
    intro Hi. pose proof (effective_le_remaining t ex price Hi). nra.
Qed.

Lemma buy_limit_within_funds_witness :
  exists limit,
    max_trade_limit Scenario.quota_trader Scenario.holding_forty
                    Scenario.buy_signal 2 = Some (false, limit)
    /\ (trade_mode Scenario.quota_trader = cash ->
        limit * 2
        == effective_balance Scenario.quota_trader Scenario.holding_forty 2
           * 0.99
        /\ limit * 2 <= account_balance Scenario.holding_forty * 0.99
        /\ (0 < initial_balance Scenario.quota_trader ->
            limit * 2
            <= remaining_quota Scenario.quota_trader Scenario.holding_forty 2
               * 0.99))
    /\ (trade_mode Scenario.quota_trader <> cash ->
        0 <= leverage Scenario.quota_trader ->
        limit * 2
        == effective_balance Scenario.quota_trader Scenario.holding_forty 2
           * leverage Scenario.quota_trader * 0.99
        /\ limit * 2
           <= account_balance Scenario.holding_forty
              * leverage Scenario.quota_trader * 0.99
        /\ (0 < initial_balance Scenario.quota_trader ->
            limit * 2
            <= remaining_quota Scenario.quota_trader Scenario.holding_forty 2
               * leverage Scenario.quota_trader * 0.99)).
Proof.
  apply (buy_limit_within_funds Scenario.quota_trader Scenario.holding_forty
           Scenario.buy_signal 2); reflexivity.
Defined.


Lemma truncate_le (d : nat) (q r : Q) :
  Scenario.truncate d q = Some r -> r <= q.
Proof.
  unfold Scenario.truncate. intro H. inversion H; subst. clear H.
  set (p := inject_Z (10 ^ Z.of_nat d)).
  assert (Hp : 0 < p).
  { unfold p. change 0 with (inject_Z 0). rewrite <- Zlt_Qlt.
    apply Z.pow_pos_nonneg; lia. }
  pose proof (Qfloor_le (q * p)) as Hf.
  apply Qle_shift_div_r; [exact Hp | exact Hf].
Qed.

(** X27. On a market that states no minimum order value, with a
    precision step that never increases an amount, the amount the
    sizer hands to order placement is within the limit computed for
    the signal's direction; the minimum-quantity raise does not break
    this, being allowed only up to the limit. *)
Theorem sized_within_limit_without_notional (t : Trader) (ex : Exchange)
        (s : Signal) (m : Market) (evs : list Event) (limit a : Q) :
  market ex = Some m -> min_cost m = None ->
  (forall q r, amount_to_precision ex q = Some r -> r <= q) ->
  sizing t ex s = (evs, inr (limit, a)) ->
  0 < a /\ a <= limit.
Proof.
  intros Hm Hmc Hprec Hsz. split.
  - exact (sizing_positive t ex s evs limit a Hsz).
  - exact (SizerSpec.sized_amount_within_limit t ex s m evs limit a
             Hm Hmc Hprec Hsz).
Qed.

Lemma sized_within_limit_without_notional_witness :
  0 < 1.0000 /\ 1.0000 <= 5940 # 200.
Proof.
  apply (sized_within_limit_without_notional Scenario.quota_trader
           Scenario.holding_forty Scenario.buy_signal
           (mkMarket None None) []).
  - reflexivity.
  - reflexivity.
  - intros q r. apply truncate_le.
  - vm_compute. reflexivity.
Defined.

Lemma select_amount_le_advised (t : Trader) (s : Signal) (closing : bool)
      (limit : Q) :
  select_amount t s closing limit <= amount s.
Proof.
  unfold select_amount.
  destruct closing; [apply min2_le_l |].
  destruct (Py.upper (confidence s) =? "HIGH"); [apply min2_le_l |].
  unfold Py.min3.
  pose proof (min2_le_l (Py.min2 (self_amount t) (amount s)) limit).
  pose proof (min2_le_r (self_amount t) (amount s)). lra.
Qed.

Lemma sizing_not_buy (t : Trader) (ex : Exchange) (s : Signal)
      (m : Market) (evs : list Event) (limit a : Q) :
  is_buy s = false -> market ex = Some m ->
  sizing t ex s = (evs, inr (limit, a)) ->
  exists closing,
    amount_to_precision ex (select_amount t s closing limit) = Some a.
Proof.
  intros Hb Hm. unfold sizing.
  destruct (ohlcv_price_sizing ex) as [price |]; [| discriminate].
  destruct (max_trade_limit t ex s price) as [[closing lim] |];
    [| discriminate].
  destruct (venue_rules _ _ _ _ _) as [evs' [e | q]] eqn:Hv; [discriminate |].
  destruct (Py.leb q 0); [discriminate |].
  intro H. inversion H; subst.
  apply (SizerSpec.venue_rules_not_buy ex s price _ _ _ _ Hb) in Hv.
  rewrite Hm in Hv. now exists closing.
Qed.

(** X28. A SELL never sends an entry larger than the amount the
    advisor suggested: on a market that answers, with a precision step
    that never increases an amount, every order of a SELL that is not
    a reduce-only close has a quantity of at most the signal's
    amount. *)
Theorem sell_entry_within_advice (t : Trader) (ex : Exchange) (s : Signal)
        (m : Market) (o : Order) :
  signal s = "SELL" -> market ex = Some m ->
  (forall q r, amount_to_precision ex q = Some r -> r <= q) ->
  In o (orders (events (execute_trade t ex s))) ->
  reduceOnly o = false ->
  quantity o <= amount s.
Proof.
  intros Hsell Hm Hprec Hin Hr.
  destruct (SizerSpec.execute_trade_orders t ex s o Hin)
    as (price & evs & limit & a & _ & Hh & Hsz & Hpl).
  destruct (SizerSpec.gate_of_sell t s (get_current_position t ex) price
              Hsell Hh) as [Heq | Hhold].
  - rewrite Heq in Hsz, Hpl.
    assert (Hnb : is_buy s = false) by (unfold is_buy; now rewrite Hsell).
    destruct (sizing_not_buy t ex s m evs limit a Hnb Hm Hsz)
      as (closing & Ha).
    apply Hprec in Ha.
    pose proof (select_amount_le_advised t s closing limit) as Hsel.
    assert (Hq : quantity o = a).
    { destruct (place_orders_shape t ex s (get_current_position t ex) a)
        as [H | (d & _ & [H | (_ & p & _ & [H | H])])];
        rewrite H in Hpl; simpl in Hpl.
      - destruct Hpl.
      - destruct Hpl as [Ho | []]. now subst o.
      - destruct Hpl as [Ho | []]. subst o. discriminate Hr.
      - destruct Hpl as [Ho | [Ho | []]]; subst o;
          [discriminate Hr | reflexivity]. }
    rewrite Hq. lra.
  - rewrite (SizerSpec.hold_places_nothing t ex _ _ a Hhold) in Hpl.
    destruct Hpl.
Qed.

Lemma sell_entry_within_advice_witness :
  quantity (mkOrder sell 20.0000 false None)
  <= amount Scenario.big_sell_signal.
Proof.
  apply (sell_entry_within_advice Scenario.quota_trader
           Scenario.holding_forty Scenario.big_sell_signal
           (mkMarket None None)).
  - reflexivity.
  - reflexivity.
  - intros q r. apply truncate_le.
  - vm_compute. left. reflexivity.
  - reflexivity.
Defined.


End RouterSpec.

(** ** The ledger, the baseline across restarts, and what [check] keeps *)

Module RiskOpsSpec.

Import RiskManager RiskOps PyFacts.
Local Open Scope string_scope.

Lemma write_rows_existing (rows : list (string * Q * Q * Q))
      (lines : list string) :
  fold_left Cases.write_row rows (Some lines)
  = Some (lines ++ map Cases.row_text rows)%list.
Proof.
  revert lines. induction rows as [| [[[ts e] p] pct] rows IH]; intro lines.
  - simpl. now rewrite app_nil_r.
  - simpl. unfold record_pnl_to_csv. rewrite IH, <- app_assoc. reflexivity.
Qed.

(** X20. The ledger file is append-only: a run of records leaves the
    lines that were there, or the header alone when the file did not
    exist, followed by one line per record in call order; nothing is
    merged, so recording the same values twice gives two lines. *)
Theorem ledger_is_append_only (file : option (list string))
        (r : string * Q * Q * Q) (rows : list (string * Q * Q * Q)) :
  fold_left Cases.write_row (r :: rows) file
  = Some ((match file with
           | None => [csv_header]
           | Some lines => lines
           end) ++ map Cases.row_text (r :: rows))%list.
Proof.
  destruct r as [[[ts e] p] pct].
  change (fold_left Cases.write_row ((ts, e, p, pct) :: rows) file)
    with (fold_left Cases.write_row rows
            (record_pnl_to_csv file ts e p pct)).
  unfold record_pnl_to_csv. rewrite write_rows_existing, <- app_assoc.
  reflexivity.
Qed.

(** *** What [check] keeps *)

Lemma ensure_baseline_keeps (rm : State) (w : World)
      (traders : list DeepSeekTrader.Trader) (e : Q) :
  let rm1 := ensure_baseline rm w traders e in
  initial_balance rm1 = initial_balance rm
  /\ max_profit rm1 = max_profit rm /\ max_loss rm1 = max_loss rm
  /\ max_profit_pct rm1 = max_profit_pct rm
  /\ max_loss_pct rm1 = max_loss_pct rm
  /\ pnl_history rm1 = pnl_history rm
  /\ (forall b, smart_baseline rm = Some b -> rm1 = rm).
Proof.
  cbv zeta. unfold ensure_baseline.
  destruct (smart_baseline rm) as [b |]; repeat split; try reflexivity.
  intros b Hb. discriminate Hb.
Qed.

Lemma monitor_keeps (rm : State) (w : World)
      (traders : list DeepSeekTrader.Trader) (e : Q) :
  let rm' := fst (monitor rm w traders e) in
  initial_balance rm' = initial_balance rm
  /\ max_profit rm' = max_profit rm /\ max_loss rm' = max_loss rm
  /\ max_profit_pct rm' = max_profit_pct rm
  /\ max_loss_pct rm' = max_loss_pct rm
  /\ smart_baseline rm' = smart_baseline rm
  /\ state_file rm' = state_file rm
  /\ (pnl_history rm' = pnl_history rm
      \/ exists row, pnl_history rm' = (pnl_history rm ++ [row])%list).
Proof.
  cbv zeta. unfold monitor.
  destruct (smart_baseline rm) as [b |] eqn:Hb.
  - destruct (Py.eqb b 0 || Py.leb b 0); simpl.
    + rewrite Hb. repeat split; try reflexivity. now left.
    + repeat split; try reflexivity; [now rewrite Hb |].
      right. eauto.
  - simpl. rewrite Hb. repeat split; try reflexivity. now left.
Qed.

(** X21. A cycle of [check] never touches the configuration (initial
    balance and the four thresholds), never changes a baseline that is
    already set nor the state file under it, and leaves the ledger as
    it was or with exactly one row added at the end. *)
Theorem check_keeps_configuration (rm : State) (w : World)
        (traders : list DeepSeekTrader.Trader) :
  let rm' := fst (check rm w traders) in
  initial_balance rm' = initial_balance rm
  /\ max_profit rm' = max_profit rm /\ max_loss rm' = max_loss rm
  /\ max_profit_pct rm' = max_profit_pct rm
  /\ max_loss_pct rm' = max_loss_pct rm
  /\ (forall b, smart_baseline rm = Some b ->
        smart_baseline rm' = Some b /\ state_file rm' = state_file rm)
  /\ (pnl_history rm' = pnl_history rm
      \/ exists row, pnl_history rm' = (pnl_history rm ++ [row])%list).
Proof.
  cbv zeta.
  assert (Hstay : fst (rm, @nil Event) = rm) by reflexivity.
  unfold check.
  destruct (read_equity w) as [e |].
  2: { rewrite Hstay. repeat split; try reflexivity; auto. }
  destruct (Py.leb e 0).
  1: { rewrite Hstay. repeat split; try reflexivity; auto. }
  destruct (ensure_baseline_keeps rm w traders e)
    as (Hi & Hp & Hl & Hpp & Hlp & Hh & Hsame).
  cbv zeta in Hsame.
  destruct (monitor_keeps (ensure_baseline rm w traders e) w traders e)
    as (Mi & Mp & Ml & Mpp & Mlp & Mb & Mf & Mh).
  cbv zeta in Mi, Mp, Ml, Mpp, Mlp, Mb, Mf, Mh.
  split; [congruence |]. split; [congruence |]. split; [congruence |].
  split; [congruence |]. split; [congruence |]. split.
  - intros b Hb. rewrite Mb, Mf, (Hsame b Hb). now split.
  - rewrite Hh in Mh. exact Mh.
Qed.

Lemma check_keeps_configuration_witness :
  let rm' := fst (check Scenario.fresh_manager
                        (Scenario.world_with_equity 1100) []) in
  initial_balance rm' = initial_balance Scenario.fresh_manager
  /\ max_profit rm' = max_profit Scenario.fresh_manager
  /\ max_loss rm' = max_loss Scenario.fresh_manager
  /\ max_profit_pct rm' = max_profit_pct Scenario.fresh_manager
  /\ max_loss_pct rm' = max_loss_pct Scenario.fresh_manager
  /\ (forall b, smart_baseline Scenario.fresh_manager = Some b ->
        smart_baseline rm' = Some b
        /\ state_file rm' = state_file Scenario.fresh_manager)
  /\ (pnl_history rm' = pnl_history Scenario.fresh_manager
      \/ exists row,
           pnl_history rm'
           = (pnl_history Scenario.fresh_manager ++ [row])%list).
Proof.
  exact (check_keeps_configuration Scenario.fresh_manager
           (Scenario.world_with_equity 1100) []).
Defined.

Lemma nonpositive_baseline_returns (rm : State) (w : World)
      (traders : list DeepSeekTrader.Trader) (b : Q) :
  smart_baseline rm = Some b -> b <= 0 -> check rm w traders = (rm, []).
Proof.
  intros Hb Hle. unfold check.
  destruct (read_equity w) as [e |]; [| reflexivity].
  destruct (Py.leb e 0); [reflexivity |].
  unfold ensure_baseline, monitor. rewrite Hb, Hb.
  rewrite (proj2 (leb_true _ _) Hle). now rewrite orb_true_r.
Qed.

(** X22. A baseline that is set but not positive switches the monitor
    off: every cycle returns the state as it was, without a ledger row
    and without evaluating any threshold, whatever the equity is; the
    baseline is not initialised again, since it is not [None]. *)
Theorem nonpositive_baseline_disables_check (rm : State) (w : World)
        (traders : list DeepSeekTrader.Trader) (b : Q) :
  smart_baseline rm = Some b -> b <= 0 -> check rm w traders = (rm, []).
Proof. apply nonpositive_baseline_returns. Qed.

Lemma nonpositive_baseline_disables_check_witness :
  check (set_baseline Scenario.fresh_manager (Some 0))
        (Scenario.world_with_equity 5000) []
  = (set_baseline Scenario.fresh_manager (Some 0), []).
Proof.
  apply (nonpositive_baseline_disables_check _ _ _ 0).
  - reflexivity.
  - unfold Qle. simpl. lia.
Defined.

Lemma gap_of_nothing (rm : State) (real : Q) :
  0 < initial_balance rm -> real == 0 -> gap_percent rm real == 100.
Proof.
  intros Hi Hr. unfold gap_percent. rewrite Hr.
  assert (Habs : Qabs (0 - initial_balance rm) == initial_balance rm).
  { setoid_replace (0 - initial_balance rm) with (- initial_balance rm)
      by ring.
    rewrite Qabs_opp. apply Qabs_pos. lra. }
  rewrite Habs. field. lra.
Qed.

(** X23. With an initial balance configured, an initialisation that
    sees a total equity of 0 (the start-up call after a failed balance
    read, with no spot holding valued) sets the baseline to that 0 and
    saves it, replacing any restored value; from then on no cycle of
    [check] records or evaluates anything. *)
Theorem zero_equity_start_blinds_monitor (rm : State) (w : Wire)
        (traders : list DeepSeekTrader.Trader) (e : Q) :
  0 < initial_balance rm ->
  real_total_equity w traders e == 0 ->
  let rm1 := initialize_baseline rm w traders e in
  smart_baseline rm1 = Some (real_total_equity w traders e)
  /\ state_file rm1 = Some (Some (real_total_equity w traders e))
  /\ (forall w' traders', check rm1 w' traders' = (rm1, [])).
Proof.
  intros Hi Hr. cbv zeta.
  assert (Hb : smart_baseline (initialize_baseline rm w traders e)
               = Some (real_total_equity w traders e)).
  { unfold initialize_baseline. simpl. unfold calibrate.
    rewrite (proj2 (ltb_true _ _) Hi).
    assert (Hfar : Py.ltb 10 (gap_percent rm (real_total_equity w traders e))
                   = true).
    { apply ltb_true. rewrite (gap_of_nothing rm _ Hi Hr). reflexivity. }
    now rewrite Hfar. }
  split; [exact Hb |]. split.
  - unfold initialize_baseline in *. simpl in *. now rewrite Hb.
  - intros w' traders'.
    apply (nonpositive_baseline_returns _ _ _ _ Hb). lra.
Qed.

Lemma zero_equity_start_blinds_monitor_witness :
  let rm1 := initialize_baseline Scenario.fresh_manager Scenario.no_wire
                                 [] 0 in
  smart_baseline rm1 = Some (real_total_equity Scenario.no_wire [] 0)
  /\ state_file rm1 = Some (Some (real_total_equity Scenario.no_wire [] 0))
  /\ (forall w' traders', check rm1 w' traders' = (rm1, [])).
Proof.
  apply (zero_equity_start_blinds_monitor Scenario.fresh_manager
           Scenario.no_wire [] 0); reflexivity.
Defined.

Lemma calibrate_settled (rm : State) (real : Q) :
  calibrate (save_state (set_baseline rm (calibrate rm real))) real
  = calibrate rm real.
Proof.
  unfold calibrate, gap_percent.
  cbn [save_state set_baseline initial_balance smart_baseline].
  destruct (Py.ltb 0 (initial_balance rm)) eqn:Hi.
  - destruct (Py.ltb 10 _) eqn:Hg; [reflexivity |].
    destruct (Py.truthy (smart_baseline rm)) eqn:Ht.
    + now rewrite Ht.
    + reflect_cmp.
      assert (Hnz : Py.truthy (Some (initial_balance rm)) = true).
      { simpl. apply negb_true_iff. apply eqb_false. lra. }
      now rewrite Hnz.
  - destruct (Py.truthy (smart_baseline rm)) eqn:Ht.
    + now rewrite Ht.
    + now destruct (Py.truthy (Some real)).
Qed.

(** X24. Initialising the baseline twice on the same readings gives
    the state that initialising once gave: the baseline chosen is
    stable, and the state file is rewritten with the same content. *)
Theorem initialize_baseline_idempotent (rm : State) (w : Wire)
        (traders : list DeepSeekTrader.Trader) (e : Q) :
  initialize_baseline (initialize_baseline rm w traders e) w traders e
  = initialize_baseline rm w traders e.
Proof.
  unfold initialize_baseline.
  set (real := real_total_equity w traders e).
  rewrite calibrate_settled. reflexivity.
Qed.

Lemma total_position_value_nonneg (w : Wire)
      (traders : list DeepSeekTrader.Trader) :
  0 <= total_position_value w traders.
Proof.
  induction traders as [| t traders IH]; simpl; [lra |].
  destruct (DeepSeekTrader.is_cash (DeepSeekTrader.trade_mode t)); simpl;
    [| lra].
  destruct (Py.ltb 0 (get_spot_balance w (DeepSeekTrader.symbol t))) eqn:Eb;
    simpl; [| lra].
  destruct (Py.ltb 0 (init_price w t)) eqn:Ep; [| lra].
  reflect_cmp. nra.
Qed.

Lemma calibrate_positive (rm : State) (real : Q) :
  smart_baseline rm = None -> 0 < real ->
  exists b, calibrate rm real = Some b /\ 0 < b.
Proof.
  intros Hn Hr. unfold calibrate. rewrite Hn. simpl.
  destruct (Py.ltb 0 (initial_balance rm)) eqn:Hi.
  - destruct (Py.ltb 10 (gap_percent rm real)); eexists;
      (split; [reflexivity |]); [exact Hr | now reflect_cmp].
  - eexists. split; [reflexivity | exact Hr].
Qed.

(** X25. A cycle that reads a positive USDT equity while the baseline
    is absent or positive always ends with a positive baseline and
    with exactly one new row at the end of the ledger; when the
    baseline was absent it has been initialised and saved to the state
    file in that same cycle. *)
Theorem usable_cycle_records_once (rm : State) (w : World)
        (traders : list DeepSeekTrader.Trader) (e : Q) :
  read_equity w = Some e -> 0 < e ->
  match smart_baseline rm with
  | Some b => 0 < b
  | None => True
  end ->
  exists b row,
    smart_baseline (fst (check rm w traders)) = Some b
    /\ 0 < b
    /\ pnl_history (fst (check rm w traders))
       = (pnl_history rm ++ [row])%list
    /\ pnl_usdt row = total_equity row - b
    /\ (smart_baseline rm = None ->
        state_file (fst (check rm w traders)) = Some (Some b)).
Proof.
  intros He Hpos Hb. unfold check. rewrite He.
  rewrite (proj2 (leb_false _ _) Hpos).
  assert (Hens : exists b,
             smart_baseline (ensure_baseline rm w traders e) = Some b
             /\ 0 < b
             /\ pnl_history (ensure_baseline rm w traders e) = pnl_history rm
             /\ (smart_baseline rm = None ->
                 state_file (ensure_baseline rm w traders e)
                 = Some (Some b))).
  { unfold ensure_baseline.
    destruct (smart_baseline rm) as [b |] eqn:Hsb.
    - exists b. repeat split; try assumption. intro H. discriminate H.
    - pose proof (total_position_value_nonneg (wire_init w) traders) as Hv.
      destruct (calibrate_positive rm
                  (real_total_equity (wire_init w) traders e) Hsb)
        as (b & Hc & Hbpos);
        [unfold real_total_equity; lra |].
      exists b. unfold initialize_baseline. simpl. rewrite Hc.
      repeat split; assumption. }
  destruct Hens as (b & Hsb & Hbpos & Hhist & Hfile).
  unfold monitor. rewrite Hsb.
  assert (Hz : Py.eqb b 0 = false) by (apply eqb_false; lra).
  rewrite Hz, (proj2 (leb_false _ _) Hbpos). simpl.
  eexists b, _. rewrite Hsb, Hhist.
  repeat split; try reflexivity; assumption.
Qed.

Lemma usable_cycle_records_once_witness :
  exists b row,
    smart_baseline (fst (check Scenario.fresh_manager
                               (Scenario.world_with_equity 1050) []))
    = Some b
    /\ 0 < b
    /\ pnl_history (fst (check Scenario.fresh_manager
                               (Scenario.world_with_equity 1050) []))
       = (pnl_history Scenario.fresh_manager ++ [row])%list
    /\ pnl_usdt row = total_equity row - b
    /\ (smart_baseline Scenario.fresh_manager = None ->
        state_file (fst (check Scenario.fresh_manager
                               (Scenario.world_with_equity 1050) []))
        = Some (Some b)).
Proof.
  apply (usable_cycle_records_once Scenario.fresh_manager
           (Scenario.world_with_equity 1050) [] 1050).
  - reflexivity.
  - reflexivity.
  - exact I.
Defined.

(** X26. The baseline survives a restart: after an initialisation has
    chosen and saved a baseline that is not 0, a new process that
    reloads the state file and runs its start-up initialisation keeps
    that baseline, as long as no initial balance is configured or the
    equity it sees is within 10% of it. *)
Theorem baseline_survives_restart (rm : State) (w w' : Wire)
        (traders : list DeepSeekTrader.Trader) (e e' : Q) :
  Py.truthy (smart_baseline (initialize_baseline rm w traders e)) = true ->
  initial_balance rm <= 0
  \/ gap_percent rm (real_total_equity w' traders e') <= 10 ->
  smart_baseline (startup (initialize_baseline rm w traders e) w' traders e')
  = smart_baseline (initialize_baseline rm w traders e).
Proof.
  intros Ht Hgap. unfold startup, restart.
  unfold initialize_baseline at 1.
  cbn [save_state set_baseline smart_baseline].
  unfold calibrate at 1.
  cbn [initial_balance smart_baseline state_file load_state].
  change (initial_balance (initialize_baseline rm w traders e))
    with (initial_balance rm).
  change (load_state (state_file (initialize_baseline rm w traders e)))
    with (smart_baseline (initialize_baseline rm w traders e)).
  rewrite Ht.
  destruct (Py.ltb 0 (initial_balance rm)) eqn:Hi; [| reflexivity].
  destruct Hgap as [Hle | Hle]; [reflect_cmp; lra |].
  assert (Hnear :
            Py.ltb 10
              (gap_percent
                 (mkState (initial_balance rm)
                    (max_profit (initialize_baseline rm w traders e))
                    (max_loss (initialize_baseline rm w traders e))
                    (max_profit_pct (initialize_baseline rm w traders e))
                    (max_loss_pct (initialize_baseline rm w traders e))
                    (smart_baseline (initialize_baseline rm w traders e)) 0
                    (state_file (initialize_baseline rm w traders e))
                    (pnl_history (initialize_baseline rm w traders e)))
                 (real_total_equity w' traders e')) = false).
  { apply ltb_false. exact Hle. }
  now rewrite Hnear.
Qed.

Lemma baseline_survives_restart_witness :
  smart_baseline (startup (initialize_baseline Scenario.fresh_manager
                             Scenario.no_wire [] 1200)
                          Scenario.no_wire [] 1050)
  = smart_baseline (initialize_baseline Scenario.fresh_manager
                      Scenario.no_wire [] 1200).
Proof.
  apply baseline_survives_restart.
  - reflexivity.
  - right. unfold Qle. vm_compute. discriminate.
Defined.


End RiskOpsSpec.
